(** * DMXOutputUsingUSART: the Art-Net / sACN to DMX bridge sketch

    A shallow embedding of [examples/DMXOutputUsingUSART/DMXOutputUsingUSART.ino]
    and the properties of its three functions [blinkLED], [setup] and [loop].

    The sketch is glue code: every line is a call into a collaborator
    (the Ethernet stack, the UDP socket, the Art-Net / sACN decoder, the
    serial DMX transmitter, the Arduino pin functions).  The embedding keeps
    that shape: the sketch's globals are a record, its functions are written
    in a small state-and-fault monad over that record, and the collaborators
    whose code is not part of the sketch are interfaces (type classes) over
    abstract state. *)

From Stdlib Require Import ZArith Lia Bool.
From stdpp Require Import base option list list_numbers strings.

Local Open Scope Z_scope.

(* ================================================================== *)
(** ** Machine integers of the AVR target *)

(** [uint8_t]: assignment to a [uint8_t] variable keeps the low 8 bits. *)
Definition uint8 (z : Z) : Z := z mod 256.

(** [int] on the AVR target is 16 bits wide.  Signed overflow is undefined
    behaviour in C++; the embedding makes [i++] at [INT_MAX] a fault. *)
Definition INT_MAX : Z := 32767.

(** A C condition [if ( e )] tests [e != 0]. *)
Definition truthy (z : Z) : bool := negb (z =? 0).

(** DMX levels are [uint8_t] values. *)
Definition level : Type := Byte.byte.

(* ================================================================== *)
(** ** Constants of the sketch and of the Arduino core *)

Definition LOW : Z := 0.
Definition HIGH : Z := 1.
Definition OUTPUT : Z := 1.

Definition MONITOR_PIN : Z := 5.
Definition RXTX_PIN : Z := 2.
Definition SDSELECT_PIN : Z := 4.

Record IPAddress : Type := IP { octet1 : Z; octet2 : Z; octet3 : Z; octet4 : Z }.

Definition mac : list Z := [0x90; 0xA2; 0xDA; 0x10; 0x6C; 0xA8].
Definition ip : IPAddress := IP 192 168 1 20.
Definition gateway : IPAddress := IP 192 168 1 1.
Definition subnet_mask : IPAddress := IP 255 255 255 0.
Definition broadcast_ip : IPAddress := IP 192 168 1 255.
Definition multicast_group : IPAddress := IP 239 255 0 1.
Definition node_name : string := "ArtNet2USART".

(** The compile-time switches of the sketch.  [USE_MULTICAST] is only
    tested with [#if defined]. *)
Record Config : Type := {
  USE_DHCP : Z;
  USE_SACN : Z;
  USE_MULTICAST_defined : bool
}.

(** The switches as the file has them. *)
Definition sketch_config : Config :=
  {| USE_DHCP := 1; USE_SACN := 0; USE_MULTICAST_defined := false |}.

(* ================================================================== *)
(** ** Collaborators *)

(** The global [Ethernet] object of the Ethernet library. *)
Class EthernetClass (E : Type) : Type := {
  Ethernet_begin : E -> list Z -> E;
  Ethernet_begin_static :
    E -> list Z -> IPAddress -> IPAddress -> IPAddress -> IPAddress -> E;
  Ethernet_maintain : E -> Z * E;
  Ethernet_localIP : E -> IPAddress;
  Ethernet_subnetMask : E -> IPAddress
}.

(** The [EthernetUDP] socket. *)
Class EthernetUDP (U : Type) : Type := {
  UDP_begin : U -> Z -> U;
  UDP_beginMulticast : U -> IPAddress -> Z -> U
}.

(** The result code that [LXDMXEthernet.h] declares for a packet of DMX
    levels; the header is not part of the sketch, so its value is left open. *)
Class LXDMXEthernet_h : Type := {
  RESULT_DMX_RECEIVED : Z
}.

(** The abstract base class [LXDMXEthernet]: the virtual methods the sketch
    calls through the [interface] pointer.  [numberOfSlots] and [getSlot]
    are getters. *)
Class LXDMXEthernet (U T : Type) : Type := {
  dmxPort : T -> Z;
  readDMXPacket : T -> U -> Z * T * U;
  numberOfSlots : T -> Z;
  getSlot : T -> Z -> level
}.

(** The methods of [LXArtNet] the sketch reaches through a downcast. *)
Class LXArtNetClass (U A : Type) : Type := {
  new_LXArtNet : IPAddress -> IPAddress -> A;
  setNodeName : A -> string -> A;
  send_art_poll_reply : A -> U -> A * U;
  setLocalIP : A -> IPAddress -> IPAddress -> A
}.

Class LXSACNClass (S : Type) : Type := {
  new_LXSACN : S
}.

(** Modelled from the spec: the Serial DMX Transmitter [LXSerialDMX], whose
    code is not part of the sketch.  Its Channel Buffer is a fixed array of
    512 levels addressed 1..512; [setSlot] updates one slot, and an index
    outside [1,512] is a defined no-op that never touches the array. *)
Record LXArduinoDMXUSART : Type := {
  dmxData : list level;
  direction_pin : option Z;
  output_started : bool
}.

Definition DMX_MAX_SLOTS : Z := 512.

Definition slot_in_range (i : Z) : bool := (1 <=? i) && (i <=? DMX_MAX_SLOTS).

Definition buffer_set (buf : list level) (i : Z) (v : level) : list level :=
  if slot_in_range i then <[Z.to_nat (i - 1) := v]> buf else buf.

Definition buffer_get (buf : list level) (i : Z) : option level :=
  if slot_in_range i then buf !! Z.to_nat (i - 1) else None.

Definition setSlot (t : LXArduinoDMXUSART) (i : Z) (v : level) : LXArduinoDMXUSART :=
  {| dmxData := buffer_set (dmxData t) i v;
     direction_pin := direction_pin t;
     output_started := output_started t |}.

Definition setDirectionPin (t : LXArduinoDMXUSART) (pin : Z) : LXArduinoDMXUSART :=
  {| dmxData := dmxData t;
     direction_pin := Some pin;
     output_started := output_started t |}.

Definition startOutput (t : LXArduinoDMXUSART) : LXArduinoDMXUSART :=
  {| dmxData := dmxData t;
     direction_pin := direction_pin t;
     output_started := true |}.

Definition LXSerialDMX_initial : LXArduinoDMXUSART :=
  {| dmxData := replicate 512 Byte.x00;
     direction_pin := None;
     output_started := false |}.

(** The calls the sketch makes on its collaborators that change something
    outside the sketch's own globals, in program order. *)
Inductive Call : Type :=
| Call_pinMode (pin mode : Z)
| Call_digitalWrite (pin val : Z)
| Call_Ethernet_begin (m : list Z)
| Call_Ethernet_begin_static (m : list Z) (a dns gw mask : IPAddress)
| Call_Ethernet_maintain
| Call_new_LXSACN
| Call_new_LXArtNet (a mask : IPAddress)
| Call_UDP_begin (port : Z)
| Call_UDP_beginMulticast (group : IPAddress) (port : Z)
| Call_setDirectionPin (pin : Z)
| Call_startOutput
| Call_setNodeName (name : string)
| Call_send_art_poll_reply
| Call_setLocalIP (a mask : IPAddress)
| Call_readDMXPacket
| Call_setSlot (i : Z) (v : level).

(** Observations on the call log. *)
Definition is_setSlot (c : Call) : bool :=
  match c with Call_setSlot _ _ => true | _ => false end.

Definition is_blink (c : Call) : bool :=
  match c with Call_digitalWrite pin _ => pin =? MONITOR_PIN | _ => false end.

Definition is_poll_reply (c : Call) : bool :=
  match c with Call_send_art_poll_reply => true | _ => false end.

Definition is_setLocalIP (c : Call) : bool :=
  match c with Call_setLocalIP _ _ => true | _ => false end.

Definition is_socket_open (c : Call) : bool :=
  match c with
  | Call_UDP_begin _ | Call_UDP_beginMulticast _ _ => true
  | _ => false
  end.

Definition is_multicast_open (c : Call) : bool :=
  match c with Call_UDP_beginMulticast _ _ => true | _ => false end.

(** A [setSlot] call whose index lies in [1,512]; other calls pass. *)
Definition slot_index_ok (c : Call) : bool :=
  match c with Call_setSlot i _ => slot_in_range i | _ => true end.

(** Calls that touch neither the Channel Buffer nor the LED. *)
Definition quiet (c : Call) : bool := negb (is_setSlot c) && negb (is_blink c).

(** More observations on the call log. *)
Definition is_read (c : Call) : bool :=
  match c with Call_readDMXPacket => true | _ => false end.

Definition is_maintain (c : Call) : bool :=
  match c with Call_Ethernet_maintain => true | _ => false end.

Definition is_lease_call (c : Call) : bool := is_maintain c || is_setLocalIP c.

(** The calls a round of [loop] can make. *)
Definition is_loop_call (c : Call) : bool :=
  is_lease_call c || is_read c || is_setSlot c || is_blink c.

(** The values written to the monitor pin, oldest first. *)
Definition blink_values (cs : list Call) : list Z :=
  flat_map (fun c => match c with
                     | Call_digitalWrite pin v => if pin =? MONITOR_PIN then [v] else []
                     | _ => []
                     end) cs.

(** HIGH, LOW, HIGH, ... : [m] values. *)
Definition led_pattern (m : nat) : list Z :=
  (fun k => if Nat.even k then HIGH else LOW) <$> seq 0 m.

(** What [blinkLED] makes of [monitorstate]. *)
Definition toggle (ms : Z) : Z := if ms =? LOW then HIGH else LOW.

(** What can go wrong below the sketch's own logic. *)
Inductive fault_kind : Type :=
| NullInterface
| BadDowncast
| IntOverflow.

(** Outcome of running a piece of the sketch. *)
Inductive outcome (X : Type) : Type :=
| Ok (x : X)
| Fault (k : fault_kind)
| OutOfFuel.
Arguments Ok {X} x.
Arguments Fault {X} k.
Arguments OutOfFuel {X}.

(* ================================================================== *)
(** ** The sketch *)

Section Sketch.

Context {E U A S : Type}.
Context `{!LXDMXEthernet_h}.
Context `{!EthernetClass E, !EthernetUDP U}.
Context `{!LXDMXEthernet U A, !LXArtNetClass U A}.
Context `{!LXDMXEthernet U S, !LXSACNClass S}.

Variable cfg : Config.

(** What [LXDMXEthernet* interface] points to once [setup] has run: an
    [LXSACN] or an [LXArtNet] object. *)
Inductive Interface : Type :=
| An_LXSACN (s : S)
| An_LXArtNet (a : A).

(** Virtual dispatch through the [interface] pointer. *)
Definition interface_dmxPort (i : Interface) : Z :=
  match i with
  | An_LXSACN s => dmxPort s
  | An_LXArtNet a => dmxPort a
  end.

Definition interface_readDMXPacket (i : Interface) (u : U) : Z * Interface * U :=
  match i with
  | An_LXSACN s => let '(r, s', u') := readDMXPacket s u in (r, An_LXSACN s', u')
  | An_LXArtNet a => let '(r, a', u') := readDMXPacket a u in (r, An_LXArtNet a', u')
  end.

Definition interface_numberOfSlots (i : Interface) : Z :=
  match i with
  | An_LXSACN s => numberOfSlots s
  | An_LXArtNet a => numberOfSlots a
  end.

Definition interface_getSlot (i : Interface) (k : Z) : level :=
  match i with
  | An_LXSACN s => getSlot s k
  | An_LXArtNet a => getSlot a k
  end.

(** The globals of the sketch, the collaborator objects it owns, and the
    log of the calls made so far. *)
Record Sketch : Type := {
  monitorstate : Z;
  use_multicast : Z;
  interface : option Interface;
  Ethernet : E;
  eUDP : U;
  LXSerialDMX : LXArduinoDMXUSART;
  calls : list Call
}.

Definition set_monitorstate (v : Z) (w : Sketch) : Sketch :=
  {| monitorstate := v; use_multicast := use_multicast w;
     interface := interface w; Ethernet := Ethernet w; eUDP := eUDP w;
     LXSerialDMX := LXSerialDMX w; calls := calls w |}.

Definition set_use_multicast (v : Z) (w : Sketch) : Sketch :=
  {| monitorstate := monitorstate w; use_multicast := v;
     interface := interface w; Ethernet := Ethernet w; eUDP := eUDP w;
     LXSerialDMX := LXSerialDMX w; calls := calls w |}.

Definition set_interface (i : Interface) (w : Sketch) : Sketch :=
  {| monitorstate := monitorstate w; use_multicast := use_multicast w;
     interface := Some i; Ethernet := Ethernet w; eUDP := eUDP w;
     LXSerialDMX := LXSerialDMX w; calls := calls w |}.

Definition set_Ethernet (e : E) (w : Sketch) : Sketch :=
  {| monitorstate := monitorstate w; use_multicast := use_multicast w;
     interface := interface w; Ethernet := e; eUDP := eUDP w;
     LXSerialDMX := LXSerialDMX w; calls := calls w |}.

Definition set_eUDP (u : U) (w : Sketch) : Sketch :=
  {| monitorstate := monitorstate w; use_multicast := use_multicast w;
     interface := interface w; Ethernet := Ethernet w; eUDP := u;
     LXSerialDMX := LXSerialDMX w; calls := calls w |}.

Definition set_LXSerialDMX (t : LXArduinoDMXUSART) (w : Sketch) : Sketch :=
  {| monitorstate := monitorstate w; use_multicast := use_multicast w;
     interface := interface w; Ethernet := Ethernet w; eUDP := eUDP w;
     LXSerialDMX := t; calls := calls w |}.

Definition log_call (c : Call) (w : Sketch) : Sketch :=
  {| monitorstate := monitorstate w; use_multicast := use_multicast w;
     interface := interface w; Ethernet := Ethernet w; eUDP := eUDP w;
     LXSerialDMX := LXSerialDMX w; calls := calls w ++ [c] |}.

(** The globals as their initialisers leave them, before [setup]: the
    [interface] pointer is null. *)
Definition power_on (e : E) (u : U) : Sketch :=
  {| monitorstate := LOW;
     use_multicast := if USE_MULTICAST_defined cfg then uint8 (USE_SACN cfg) else 0;
     interface := None;
     Ethernet := e;
     eUDP := u;
     LXSerialDMX := LXSerialDMX_initial;
     calls := [] |}.

(** *** The monad: state, plus a fault for a null or wrongly cast
    [interface] pointer, plus running out of loop fuel *)

Definition M (X : Type) : Type := Sketch -> outcome (X * Sketch).

#[local] Instance M_ret : MRet M := fun X x w => Ok (x, w).

#[local] Instance M_bind : MBind M := fun X Y f m w =>
  match m w with
  | Ok (x, w') => f x w'
  | Fault k => Fault k
  | OutOfFuel => OutOfFuel
  end.

Definition gets {X : Type} (f : Sketch -> X) : M X := fun w => Ok (f w, w).
Definition modify (f : Sketch -> Sketch) : M unit := fun w => Ok (tt, f w).
Definition fault {X : Type} (k : fault_kind) : M X := fun _ => Fault k.
Definition out_of_fuel {X : Type} : M X := fun _ => OutOfFuel.
Definition call {X : Type} (f : Sketch -> X * Sketch) : M X := fun w => Ok (f w).
Definition skip : M unit := mret tt.

(** The state a computation ends in. *)
Definition exec {X : Type} (m : M X) (w : Sketch) : outcome Sketch :=
  match m w with
  | Ok (_, w') => Ok w'
  | Fault k => Fault k
  | OutOfFuel => OutOfFuel
  end.

(** [i++] on an [int]. *)
Definition int_incr (i : Z) : M Z :=
  if i <? INT_MAX then mret (i + 1) else fault IntOverflow.

(** *** Collaborator calls, as the sketch makes them *)

Definition pinMode (pin mode : Z) : M unit :=
  modify (log_call (Call_pinMode pin mode)).

Definition digitalWrite (pin val : Z) : M unit :=
  modify (log_call (Call_digitalWrite pin val)).

Definition Ethernet_begin_ (m : list Z) : M unit :=
  modify (fun w => log_call (Call_Ethernet_begin m)
                     (set_Ethernet (Ethernet_begin (Ethernet w) m) w)).

Definition Ethernet_begin_static_ (m : list Z) (a dns gw mask : IPAddress) : M unit :=
  modify (fun w => log_call (Call_Ethernet_begin_static m a dns gw mask)
                     (set_Ethernet (Ethernet_begin_static (Ethernet w) m a dns gw mask) w)).

Definition Ethernet_maintain_ : M Z :=
  call (fun w => let '(r, e') := Ethernet_maintain (Ethernet w) in
                 (r, log_call Call_Ethernet_maintain (set_Ethernet e' w))).

Definition Ethernet_localIP_ : M IPAddress := gets (fun w => Ethernet_localIP (Ethernet w)).
Definition Ethernet_subnetMask_ : M IPAddress := gets (fun w => Ethernet_subnetMask (Ethernet w)).

Definition eUDP_begin (port : Z) : M unit :=
  modify (fun w => log_call (Call_UDP_begin port)
                     (set_eUDP (UDP_begin (eUDP w) port) w)).

Definition eUDP_beginMulticast (group : IPAddress) (port : Z) : M unit :=
  modify (fun w => log_call (Call_UDP_beginMulticast group port)
                     (set_eUDP (UDP_beginMulticast (eUDP w) group port) w)).

Definition LXSerialDMX_setDirectionPin (pin : Z) : M unit :=
  modify (fun w => log_call (Call_setDirectionPin pin)
                     (set_LXSerialDMX (setDirectionPin (LXSerialDMX w) pin) w)).

Definition LXSerialDMX_startOutput : M unit :=
  modify (fun w => log_call Call_startOutput
                     (set_LXSerialDMX (startOutput (LXSerialDMX w)) w)).

Definition LXSerialDMX_setSlot (i : Z) (v : level) : M unit :=
  modify (fun w => log_call (Call_setSlot i v)
                     (set_LXSerialDMX (setSlot (LXSerialDMX w) i v) w)).

(** [interface = new LXSACN()] and [interface = new LXArtNet(ip, mask)]. *)
Definition interface_new_LXSACN : M unit :=
  modify (fun w => log_call Call_new_LXSACN (set_interface (An_LXSACN new_LXSACN) w)).

Definition interface_new_LXArtNet (a mask : IPAddress) : M unit :=
  modify (fun w => log_call (Call_new_LXArtNet a mask)
                     (set_interface (An_LXArtNet (new_LXArtNet a mask)) w)).

(** [interface->]: a null pointer is a fault. *)
Definition deref_interface : M Interface :=
  fun w => match interface w with
           | Some i => Ok (i, w)
           | None => Fault NullInterface
           end.

(** [((LXArtNet* )interface)->]: the cast is only good on an [LXArtNet]. *)
Definition deref_LXArtNet : M A :=
  i ← deref_interface;
  match i with
  | An_LXArtNet a => mret a
  | An_LXSACN _ => fault BadDowncast
  end.

Definition interface_dmxPort_ : M Z :=
  i ← deref_interface; mret (interface_dmxPort i).

Definition interface_numberOfSlots_ : M Z :=
  i ← deref_interface; mret (interface_numberOfSlots i).

Definition interface_getSlot_ (k : Z) : M level :=
  i ← deref_interface; mret (interface_getSlot i k).

Definition interface_readDMXPacket_ : M Z :=
  i ← deref_interface;
  call (fun w => let '(r, i', u') := interface_readDMXPacket i (eUDP w) in
                 (r, log_call Call_readDMXPacket (set_eUDP u' (set_interface i' w)))).

Definition LXArtNet_setNodeName (name : string) : M unit :=
  a ← deref_LXArtNet;
  modify (fun w => log_call (Call_setNodeName name)
                     (set_interface (An_LXArtNet (setNodeName a name)) w)).

Definition LXArtNet_send_art_poll_reply : M unit :=
  a ← deref_LXArtNet;
  modify (fun w => let r := send_art_poll_reply a (eUDP w) in
                   log_call Call_send_art_poll_reply
                     (set_eUDP r.2 (set_interface (An_LXArtNet r.1) w))).

Definition LXArtNet_setLocalIP (a0 mask : IPAddress) : M unit :=
  a ← deref_LXArtNet;
  modify (fun w => log_call (Call_setLocalIP a0 mask)
                     (set_interface (An_LXArtNet (setLocalIP a a0 mask)) w)).

(** *** [blinkLED] *)

Definition blinkLED : M unit :=
  ms ← gets monitorstate;
  (if ms =? LOW then modify (set_monitorstate HIGH)
   else modify (set_monitorstate LOW));;
  ms' ← gets monitorstate;
  digitalWrite MONITOR_PIN ms'.

(** *** [setup] *)

Definition setup : M unit :=
  pinMode MONITOR_PIN OUTPUT;;
  blinkLED;;
  pinMode SDSELECT_PIN OUTPUT;;
  (if truthy (USE_DHCP cfg) then Ethernet_begin_ mac
   else Ethernet_begin_static_ mac ip gateway gateway subnet_mask);;
  (if truthy (USE_SACN cfg) then interface_new_LXSACN
   else
     a ← Ethernet_localIP_;
     mask ← Ethernet_subnetMask_;
     interface_new_LXArtNet a mask;;
     modify (set_use_multicast 0));;
  um ← gets use_multicast;
  (if truthy um then
     (if USE_MULTICAST_defined cfg then
        port ← interface_dmxPort_;
        eUDP_beginMulticast multicast_group port
      else skip)
   else
     port ← interface_dmxPort_;
     eUDP_begin port);;
  LXSerialDMX_setDirectionPin RXTX_PIN;;
  LXSerialDMX_startOutput;;
  (if negb (truthy (USE_SACN cfg)) then
     LXArtNet_setNodeName node_name;;
     LXArtNet_send_art_poll_reply
   else skip);;
  blinkLED.

(** *** [loop] *)

(** [for (int i = 1; i <= interface->numberOfSlots(); i++)
       LXSerialDMX.setSlot(i, interface->getSlot(i));]
    from the current value of [i]; the bound is read again on every
    round. *)
Fixpoint copy_slots (fuel : nat) (i : Z) : M unit :=
  match fuel with
  | O => out_of_fuel
  | Datatypes.S fuel' =>
      n ← interface_numberOfSlots_;
      if i <=? n then
        v ← interface_getSlot_ i;
        LXSerialDMX_setSlot i v;;
        i' ← int_incr i;
        copy_slots fuel' i'
      else skip
  end.

(** Lines 219-226: the address lease. *)
Definition loop_maintain : M unit :=
  if truthy (USE_DHCP cfg) then
    r ← Ethernet_maintain_;
    let dhcpr := uint8 r in
    if (dhcpr =? 4) || (dhcpr =? 2) then
      if negb (truthy (USE_SACN cfg)) then
        a ← Ethernet_localIP_;
        mask ← Ethernet_subnetMask_;
        LXArtNet_setLocalIP a mask
      else skip
    else skip
  else skip.

(** Lines 228-235: one packet. *)
Definition loop_receive (fuel : nat) : M unit :=
  r ← interface_readDMXPacket_;
  let result := uint8 r in
  if result =? RESULT_DMX_RECEIVED then
    copy_slots fuel 1;;
    blinkLED
  else skip.

Definition loop (fuel : nat) : M unit :=
  loop_maintain;;
  loop_receive fuel.

(** *** The Arduino runtime: [setup] once, then [loop] for ever *)

(** The first [k] rounds of [loop]. *)
Fixpoint rounds (fuel k : nat) : M unit :=
  match k with
  | O => skip
  | Datatypes.S k' => loop fuel;; rounds fuel k'
  end.

Definition sketch (fuel k : nat) : M unit :=
  setup;;
  rounds fuel k.

(** *** Reading aids for the statements below *)

(** The LED log: the monitor pin has been written [m] times, HIGH and LOW
    in turn starting with HIGH, and [monitorstate] is the last value
    written. *)
Definition led_at (m : nat) (w : Sketch) : Prop :=
  blink_values (calls w) = led_pattern m /\
  monitorstate w = if Nat.even m then LOW else HIGH.

(** The value a computation returns. *)
Definition eval {X : Type} (m : M X) (w : Sketch) : outcome X :=
  match m w with
  | Ok (x, _) => Ok x
  | Fault k => Fault k
  | OutOfFuel => OutOfFuel
  end.

(** One round of [loop] up to and including [uint8_t result = ...]. *)
Definition read_phase : M Z :=
  loop_maintain;;
  r ← interface_readDMXPacket_;
  mret (uint8 r).

(** The state [setup] leaves and [loop] keeps: [interface] points to an
    object of the configured variant, and the Channel Buffer has its 512
    entries. *)
Definition is_ready (w : Sketch) : bool :=
  match interface w with
  | Some (An_LXArtNet _) => negb (truthy (USE_SACN cfg))
  | Some (An_LXSACN _) => truthy (USE_SACN cfg)
  | None => false
  end && (length (dmxData (LXSerialDMX w)) =? 512)%nat.

(** The [setSlot] calls of a copy of slots [1..n] out of decoder [d], and
    what they do to the transmitter. *)
Definition slot_calls (d : Interface) (n : Z) : list Call :=
  (fun i => Call_setSlot i (interface_getSlot d i)) <$> seqZ 1 n.

Definition copy_into (d : Interface) (t : LXArduinoDMXUSART) (ks : list Z) : LXArduinoDMXUSART :=
  foldl (fun t i => setSlot t i (interface_getSlot d i)) t ks.

(** The sketch after [setSlot(i, getSlot(i))] for each [i] of [ks] in turn. *)
Definition copied (d : Interface) (ks : list Z) (w : Sketch) : Sketch :=
  {| monitorstate := monitorstate w; use_multicast := use_multicast w;
     interface := interface w; Ethernet := Ethernet w; eUDP := eUDP w;
     LXSerialDMX := copy_into d (LXSerialDMX w) ks;
     calls := calls w ++ ((fun i => Call_setSlot i (interface_getSlot d i)) <$> ks) |}.

(** Some index of [ks] is a valid slot stored at array position [p]. *)
Definition written (ks : list Z) (p : nat) : bool :=
  existsb (fun i => slot_in_range i && (Z.to_nat (i - 1) =? p)%nat) ks.

(** The sketch after one [blinkLED]. *)
Definition blinked (w : Sketch) : Sketch :=
  log_call (Call_digitalWrite MONITOR_PIN (toggle (monitorstate w)))
    (set_monitorstate (toggle (monitorstate w)) w).

(** The calls of the current round: what was logged after [w]. *)
Definition calls_since (w w' : Sketch) : list Call :=
  drop (length (calls w)) (calls w').

(** The call [setup] makes to bring up Ethernet. *)
Definition ethernet_call : Call :=
  if truthy (USE_DHCP cfg) then Call_Ethernet_begin mac
  else Call_Ethernet_begin_static mac ip gateway gateway subnet_mask.

(** The Ethernet object once [setup] has brought it up. *)
Definition ethernet_up (e : E) : E :=
  if truthy (USE_DHCP cfg) then Ethernet_begin e mac
  else Ethernet_begin_static e mac ip gateway gateway subnet_mask.

(** [dhcpr] says renew or rebind success. *)
Definition lease_renewed (r : Z) : bool := (uint8 r =? 4) || (uint8 r =? 2).

End Sketch.

(* ================================================================== *)
(** ** A bench: the simplest collaborators that implement the interfaces

    Used to run the sketch on concrete inputs. *)

Module Bench.

(** The Ethernet object: the current lease and the answers [maintain] will
    give, each with the lease that then holds. *)
Record Eth : Type := {
  lease_ip : IPAddress;
  lease_mask : IPAddress;
  lease_events : list (Z * IPAddress * IPAddress)
}.

#[export] Instance Eth_ops : EthernetClass Eth := {|
  Ethernet_begin e _ := e;
  Ethernet_begin_static e _ a _ _ mask :=
    {| lease_ip := a; lease_mask := mask; lease_events := lease_events e |};
  Ethernet_maintain e :=
    match lease_events e with
    | [] => (0, e)
    | (r, a, mask) :: rest =>
        if (r =? 2) || (r =? 4)
        then (r, {| lease_ip := a; lease_mask := mask; lease_events := rest |})
        else (r, {| lease_ip := lease_ip e; lease_mask := lease_mask e;
                    lease_events := rest |})
    end;
  Ethernet_localIP := lease_ip;
  Ethernet_subnetMask := lease_mask
|}.

(** A datagram as the decoders see it: the result code it will be given and
    the levels it carries. *)
Record Datagram : Type := { code : Z; levels : list level }.

(** A poll reply on the wire: node name and address. *)
Record PollReply : Type := { reply_name : string; reply_ip : IPAddress }.

(** The socket: how it was opened, what is waiting, what was sent. *)
Record Udp : Type := {
  opened : list (option IPAddress * Z);
  pending : list Datagram;
  sent : list PollReply
}.

#[export] Instance Udp_ops : EthernetUDP Udp := {|
  UDP_begin u port :=
    {| opened := opened u ++ [(None, port)]; pending := pending u; sent := sent u |};
  UDP_beginMulticast u group port :=
    {| opened := opened u ++ [(Some group, port)]; pending := pending u; sent := sent u |}
|}.

#[export] Instance header : LXDMXEthernet_h := {| RESULT_DMX_RECEIVED := 1 |}.

(** A decoder keeps the levels of the last DMX packet. *)
Definition take_packet (cache : list level) (u : Udp) : Z * list level * Udp :=
  match pending u with
  | [] => (0, cache, u)
  | p :: rest =>
      let u' := {| opened := opened u; pending := rest; sent := sent u |} in
      if code p =? 1 then (1, levels p, u') else (code p, cache, u')
  end.

Definition cached_slot (cache : list level) (i : Z) : level :=
  if 1 <=? i then nth (Z.to_nat (i - 1)) cache Byte.x00 else Byte.x00.

Record ArtNet : Type := {
  art_cache : list level;
  art_name : string;
  art_ip : IPAddress;
  art_mask : IPAddress
}.

Record Sacn : Type := { sacn_cache : list level }.

#[export] Instance ArtNet_dmx : LXDMXEthernet Udp ArtNet := {|
  dmxPort _ := 0x1936;
  readDMXPacket a u :=
    let '(r, c, u') := take_packet (art_cache a) u in
    (r, {| art_cache := c; art_name := art_name a;
           art_ip := art_ip a; art_mask := art_mask a |}, u');
  numberOfSlots a := Z.of_nat (length (art_cache a));
  getSlot a := cached_slot (art_cache a)
|}.

#[export] Instance ArtNet_ops : LXArtNetClass Udp ArtNet := {|
  new_LXArtNet a mask :=
    {| art_cache := []; art_name := EmptyString; art_ip := a; art_mask := mask |};
  setNodeName a name :=
    {| art_cache := art_cache a; art_name := name;
       art_ip := art_ip a; art_mask := art_mask a |};
  send_art_poll_reply a u :=
    (a, {| opened := opened u; pending := pending u;
           sent := sent u ++ [{| reply_name := art_name a; reply_ip := art_ip a |}] |});
  setLocalIP a a' mask :=
    {| art_cache := art_cache a; art_name := art_name a;
       art_ip := a'; art_mask := mask |}
|}.

#[export] Instance Sacn_dmx : LXDMXEthernet Udp Sacn := {|
  dmxPort _ := 5568;
  readDMXPacket s u :=
    let '(r, c, u') := take_packet (sacn_cache s) u in (r, {| sacn_cache := c |}, u');
  numberOfSlots s := Z.of_nat (length (sacn_cache s));
  getSlot s := cached_slot (sacn_cache s)
|}.

#[export] Instance Sacn_ops : LXSACNClass Sacn := {| new_LXSACN := {| sacn_cache := [] |} |}.

Definition eth0 : Eth :=
  {| lease_ip := ip; lease_mask := subnet_mask;
     lease_events := [(0, ip, subnet_mask); (2, IP 192 168 1 77, subnet_mask);
                      (1, ip, subnet_mask)] |}.

Definition udp_with (ps : list Datagram) : Udp :=
  {| opened := []; pending := ps; sent := [] |}.

Definition artnet_config : Config := sketch_config.
Definition sacn_config : Config :=
  {| USE_DHCP := 1; USE_SACN := 1; USE_MULTICAST_defined := true |}.

Definition state_of {X : Type} (o : outcome X) (dflt : X) : X :=
  match o with Ok x => x | _ => dflt end.

(** The sketch after [setup], with the given datagrams waiting. *)
Definition booted (cfg : Config) (ps : list Datagram) : Sketch :=
  let w0 := power_on cfg eth0 (udp_with ps) in
  state_of (exec (setup cfg) w0) w0.

(** The sketch as one round of [loop] leaves it, and as the read phase of
    the next round leaves it. *)
Definition after_loop (cfg : Config) (fuel : nat) (w : Sketch) : Sketch :=
  state_of (exec (loop cfg fuel) w) w.

Definition after_read (cfg : Config) (w : Sketch) : Sketch :=
  state_of (exec (read_phase cfg) w) w.

(** An Art-Net decoder holding the given levels. *)
Definition artnet_holding (ls : list level) (a : IPAddress) : @Interface ArtNet Sacn :=
  An_LXArtNet {| art_cache := ls; art_name := node_name;
                 art_ip := a; art_mask := subnet_mask |}.

Definition static_config : Config :=
  {| USE_DHCP := 0; USE_SACN := 0; USE_MULTICAST_defined := false |}.

(** [USE_SACN] set to a value whose low byte is zero. *)
Definition sacn256_config : Config :=
  {| USE_DHCP := 1; USE_SACN := 256; USE_MULTICAST_defined := true |}.

Definition dmx1 : Datagram := {| code := 1; levels := [Byte.x63] |}.

(** The sketch as [k] rounds of [loop] leave it. *)
Definition after_rounds (cfg : Config) (fuel k : nat) (w : Sketch) : Sketch :=
  state_of (exec (rounds cfg fuel k) w) w.

Definition three : list level := [Byte.x0a; Byte.x14; Byte.x1e].
Definition dmx3 : Datagram := {| code := 1; levels := three |}.
Definition other_packet : Datagram := {| code := 2; levels := [Byte.xff] |}.
Definition dmx513 : Datagram := {| code := 1; levels := replicate 513 Byte.x07 |}.
Definition dmx0 : Datagram := {| code := 1; levels := [] |}.

End Bench.

(* ================================================================== *)
(** ** Properties *)

Section Properties.

Context {E U A S : Type}.
Context `{!LXDMXEthernet_h}.
Context `{!EthernetClass E, !EthernetUDP U}.
Context `{!LXDMXEthernet U A, !LXArtNetClass U A}.
Context `{!LXDMXEthernet U S, !LXSACNClass S}.

Variable cfg : Config.

#[local] Existing Instances M_ret M_bind.

Local Abbreviation Sk := (@Sketch E U A S).
Local Abbreviation Ifc := (@Interface A S).

(** Unfold the monad down to matches on outcomes. *)
Ltac unmonad :=
  unfold mbind, M_bind, mret, M_ret, gets, modify, call, skip, fault, out_of_fuel.

(** *** [blinkLED] *)

Lemma blinkLED_run (w : Sk) : blinkLED w = Ok (tt, blinked w).
Proof.
  unfold blinkLED, blinked, digitalWrite, toggle. unmonad. simpl.
  destruct (monitorstate w =? LOW); reflexivity.
Qed.

Lemma toggle_LOW : toggle LOW = HIGH.
Proof. reflexivity. Qed.

Lemma toggle_HIGH : toggle HIGH = LOW.
Proof. reflexivity. Qed.

(** *** The copy loop *)

Lemma copied_nil (d : Ifc) (w : Sk) : copied d [] w = w.
Proof.
  unfold copied. destruct w; simpl. by rewrite app_nil_r.
Qed.

Lemma copied_cons (d : Ifc) (i : Z) (ks : list Z) (w : Sk) :
  copied d ks
    (log_call (Call_setSlot i (interface_getSlot d i))
       (set_LXSerialDMX (setSlot (LXSerialDMX w) i (interface_getSlot d i)) w))
  = copied d (i :: ks) w.
Proof.
  unfold copied. simpl. by rewrite <- app_assoc.
Qed.

(** With the decoder at [d] reporting [n < INT_MAX] slots, the loop started
    at [i] ends after [n - i + 1] rounds, having called [setSlot] on
    [i, i+1, ..., n] in that order. *)
Lemma copy_slots_run (fuel : nat) :
  forall (i : Z) (w : Sk) (d : Ifc),
    interface w = Some d ->
    interface_numberOfSlots d < INT_MAX ->
    (Z.to_nat (interface_numberOfSlots d - i + 1) < fuel)%nat ->
    copy_slots fuel i w
    = Ok (tt, copied d (seqZ i (interface_numberOfSlots d - i + 1)) w).
Proof.
  induction fuel as [|fuel IH]; intros i w d Hd Hn Hfuel; [lia|].
  simpl. unfold interface_numberOfSlots_, interface_getSlot_, deref_interface,
    LXSerialDMX_setSlot, int_incr.
  unmonad. rewrite Hd. simpl.
  destruct (Z.leb_spec i (interface_numberOfSlots d)) as [Hle|Hgt].
  - rewrite Hd.
    assert ((i <? INT_MAX) = true) as -> by (apply Z.ltb_lt; lia).
    rewrite (IH (i + 1) _ d); [|done|done|lia].
    rewrite (seqZ_cons i) by lia.
    replace (Z.succ i) with (i + 1) by lia.
    replace (Z.pred (interface_numberOfSlots d - i + 1))
      with (interface_numberOfSlots d - (i + 1) + 1) by lia.
    by rewrite copied_cons.
  - rewrite seqZ_nil by lia. by rewrite copied_nil.
Qed.

(** *** The lease step and the packet read *)

Lemma is_ready_interface (w : Sk) :
  is_ready cfg w = true ->
  (exists a, interface w = Some (An_LXArtNet a) /\ truthy (USE_SACN cfg) = false) \/
  (exists s, interface w = Some (An_LXSACN s) /\ truthy (USE_SACN cfg) = true).
Proof.
  unfold is_ready. intros Hr. apply andb_true_iff in Hr as [Hv _].
  destruct (interface w) as [[s|a]|]; [right|left|done].
  - by exists s.
  - exists a. split; [done|]. by apply negb_true_iff.
Qed.

Lemma is_ready_length (w : Sk) :
  is_ready cfg w = true -> length (dmxData (LXSerialDMX w)) = 512%nat.
Proof.
  unfold is_ready. intros Hr. apply andb_true_iff in Hr as [_ Hl].
  by apply Nat.eqb_eq.
Qed.

(** The lease step in full. *)
Lemma loop_maintain_run (w : Sk) :
  is_ready cfg w = true ->
  exists w1,
    loop_maintain cfg w = Ok (tt, w1) /\
    is_ready cfg w1 = true /\
    monitorstate w1 = monitorstate w /\
    use_multicast w1 = use_multicast w /\
    eUDP w1 = eUDP w /\
    LXSerialDMX w1 = LXSerialDMX w /\
    if truthy (USE_DHCP cfg) then
      Ethernet w1 = (Ethernet_maintain (Ethernet w)).2 /\
      let r := (Ethernet_maintain (Ethernet w)).1 in
      let e' := (Ethernet_maintain (Ethernet w)).2 in
      if lease_renewed r && negb (truthy (USE_SACN cfg)) then
        exists a,
          interface w = Some (An_LXArtNet a) /\
          interface w1 =
            Some (An_LXArtNet
                    (setLocalIP a (Ethernet_localIP e') (Ethernet_subnetMask e'))) /\
          calls w1 =
            calls w ++ [Call_Ethernet_maintain;
                        Call_setLocalIP (Ethernet_localIP e') (Ethernet_subnetMask e')]
      else
        interface w1 = interface w /\
        calls w1 = calls w ++ [Call_Ethernet_maintain]
    else w1 = w.
Proof.
  intros Hr. unfold loop_maintain.
  destruct (truthy (USE_DHCP cfg)) eqn:Hdhcp; [|by exists w].
  unfold Ethernet_maintain_, Ethernet_localIP_, Ethernet_subnetMask_,
    LXArtNet_setLocalIP, deref_LXArtNet, deref_interface, lease_renewed.
  unmonad. simpl.
  destruct (Ethernet_maintain (Ethernet w)) as [r e'] eqn:Hm. simpl.
  destruct ((uint8 r =? 4) || (uint8 r =? 2)) eqn:Hrenew; simpl.
  - destruct (is_ready_interface w Hr) as [(a & Ha & Hs)|(s & Hs' & Hs)];
      rewrite Hs; simpl.
    + rewrite Ha. eexists. split; [reflexivity|]. simpl.
      repeat split; try done.
      * unfold is_ready in *. simpl. by rewrite Ha in Hr.
      * exists a. repeat split; try done. by rewrite <- app_assoc.
    + eexists. split; [reflexivity|]. simpl. repeat split; try done.
  - eexists. split; [reflexivity|]. simpl. repeat split; try done.
Qed.

(** One round of [loop] is the read phase followed by the DMX branch. *)
Lemma loop_split (fuel : nat) (w : Sk) :
  loop cfg fuel w =
  match read_phase cfg w with
  | Ok (result, w1) =>
      if result =? RESULT_DMX_RECEIVED
      then match copy_slots fuel 1 w1 with
           | Ok (_, w2) => blinkLED w2
           | Fault k => Fault k
           | OutOfFuel => OutOfFuel
           end
      else Ok (tt, w1)
  | Fault k => Fault k
  | OutOfFuel => OutOfFuel
  end.
Proof.
  unfold loop, read_phase, loop_receive. unmonad.
  destruct (loop_maintain cfg w) as [[[] w0]|k|]; try reflexivity.
  destruct (interface_readDMXPacket_ w0) as [[r w1]|k|]; try reflexivity.
  destruct (uint8 r =? RESULT_DMX_RECEIVED); reflexivity.
Qed.

(** From a ready state the read phase never faults; it leaves the LED and
    the Channel Buffer alone and hands on a ready state. *)
Lemma read_phase_run (w : Sk) :
  is_ready cfg w = true ->
  exists result w1 d,
    read_phase cfg w = Ok (result, w1) /\
    is_ready cfg w1 = true /\
    interface w1 = Some d /\
    monitorstate w1 = monitorstate w /\
    LXSerialDMX w1 = LXSerialDMX w /\
    exists cs, calls w1 = calls w ++ cs /\ forallb quiet cs = true.
Proof.
  intros Hr.
  destruct (loop_maintain_run w Hr)
    as (w0 & Hrun & Hr0 & Hms & _ & _ & Htx & Hcalls).
  unfold read_phase, interface_readDMXPacket_, deref_interface. unmonad.
  rewrite Hrun.
  assert (exists cs0, calls w0 = calls w ++ cs0 /\ forallb quiet cs0 = true)
    as (cs0 & Hcs0 & Hq0).
  { destruct (truthy (USE_DHCP cfg)).
    - destruct Hcalls as [_ Hcalls]. cbv zeta in Hcalls.
      match type of Hcalls with
      | if ?b then _ else _ => destruct b
      end.
      + destruct Hcalls as (a & _ & _ & ->). by eexists.
      + destruct Hcalls as [_ ->]. by eexists.
    - subst w0. exists []. by rewrite app_nil_r. }
  assert (forall d r d' u',
            interface w0 = Some d ->
            interface_readDMXPacket d (eUDP w0) = (r, d', u') ->
            is_ready cfg (log_call Call_readDMXPacket
                            (set_eUDP u' (set_interface d' w0))) = true) as Hkeep.
  { intros d r d' u' Hd Hread. unfold is_ready in *. simpl.
    rewrite Hd in Hr0. destruct d as [s|a]; simpl in Hread.
    - destruct (readDMXPacket s (eUDP w0)) as [[r0 s'] u0].
      by inversion Hread; subst.
    - destruct (readDMXPacket a (eUDP w0)) as [[r0 a'] u0].
      by inversion Hread; subst. }
  destruct (is_ready_interface w0 Hr0) as [(a & Ha & _)|(s & Hs & _)].
  - rewrite Ha.
    destruct (interface_readDMXPacket (An_LXArtNet a) (eUDP w0))
      as [[r d'] u'] eqn:Hread.
    eexists _, _, d'. split; [reflexivity|]. simpl.
    repeat split; try done.
    + by eapply Hkeep.
    + exists (cs0 ++ [Call_readDMXPacket]). rewrite Hcs0, <- app_assoc.
      split; [done|]. rewrite forallb_app, Hq0. reflexivity.
  - rewrite Hs.
    destruct (interface_readDMXPacket (An_LXSACN s) (eUDP w0))
      as [[r d'] u'] eqn:Hread.
    eexists _, _, d'. split; [reflexivity|]. simpl.
    repeat split; try done.
    + by eapply Hkeep.
    + exists (cs0 ++ [Call_readDMXPacket]). rewrite Hcs0, <- app_assoc.
      split; [done|]. rewrite forallb_app, Hq0. reflexivity.
Qed.

(** *** The Channel Buffer under a copy *)

Lemma length_buffer_set (buf : list level) (i : Z) (v : level) :
  length (buffer_set buf i v) = length buf.
Proof.
  unfold buffer_set. destruct (slot_in_range i); [apply length_insert|done].
Qed.

Lemma slot_in_range_spec (i : Z) : slot_in_range i = true <-> 1 <= i <= 512.
Proof.
  unfold slot_in_range, DMX_MAX_SLOTS. rewrite andb_true_iff, !Z.leb_le. done.
Qed.

Lemma copy_into_cons (d : Ifc) (t : LXArduinoDMXUSART) (i : Z) (ks : list Z) :
  copy_into d t (i :: ks) = copy_into d (setSlot t i (interface_getSlot d i)) ks.
Proof. reflexivity. Qed.

Lemma length_copy_into (d : Ifc) (ks : list Z) :
  forall t, length (dmxData (copy_into d t ks)) = length (dmxData t).
Proof.
  induction ks as [|i ks IH]; intros t; [done|].
  rewrite copy_into_cons, IH. apply length_buffer_set.
Qed.

Lemma copy_into_pins (d : Ifc) (ks : list Z) :
  forall t,
    direction_pin (copy_into d t ks) = direction_pin t /\
    output_started (copy_into d t ks) = output_started t.
Proof.
  induction ks as [|i ks IH]; intros t; [done|].
  rewrite copy_into_cons.
  destruct (IH (setSlot t i (interface_getSlot d i))) as [-> ->].
  done.
Qed.

(** Every write stores [getSlot(i)] at index [i], so after any sequence of
    such writes an array position holds the decoder's level for that slot if
    it was written at all, and its old content otherwise. *)
Lemma copy_into_lookup (d : Ifc) (ks : list Z) :
  forall t (p : nat),
    dmxData (copy_into d t ks) !! p =
    if written ks p && (p <? length (dmxData t))%nat
    then Some (interface_getSlot d (Z.of_nat p + 1))
    else dmxData t !! p.
Proof.
  induction ks as [|i ks IH]; intros t p; [done|].
  rewrite copy_into_cons, IH. simpl. rewrite length_buffer_set.
  destruct (written ks p && (p <? length (dmxData t))%nat) eqn:Hw.
  - apply andb_true_iff in Hw as [-> ->]. by rewrite orb_true_r.
  - unfold buffer_set.
    destruct (slot_in_range i) eqn:Hi; simpl.
    + rewrite list_lookup_insert.
      apply slot_in_range_spec in Hi.
      destruct (Nat.eqb_spec (Z.to_nat (i - 1)) p) as [Hp|Hp]; simpl.
      * case_decide as Hd.
        -- destruct Hd as [_ Hlt]. rewrite Hp in Hlt.
           apply Nat.ltb_lt in Hlt. rewrite Hlt.
           do 2 f_equal. lia.
        -- assert ((p <? length (dmxData t))%nat = false) as ->.
           { apply Nat.ltb_ge. apply not_and_l in Hd as [Hd|Hd]; [done|]. lia. }
           by rewrite ?andb_false_r.
      * case_decide as Hd; [by destruct Hd|].
        apply andb_false_iff in Hw as [->| ->]; by rewrite ?andb_false_r.
    + apply andb_false_iff in Hw as [->| ->]; by rewrite ?andb_false_r.
Qed.

Lemma transmitter_eq (t1 t2 : LXArduinoDMXUSART) :
  dmxData t1 = dmxData t2 ->
  direction_pin t1 = direction_pin t2 ->
  output_started t1 = output_started t2 ->
  t1 = t2.
Proof. destruct t1, t2; simpl; congruence. Qed.

(** Copying the same slots out of the same decoder a second time changes
    nothing. *)
Lemma copy_into_twice (d : Ifc) (ks : list Z) (t : LXArduinoDMXUSART) :
  copy_into d (copy_into d t ks) ks = copy_into d t ks.
Proof.
  apply transmitter_eq.
  - apply list_eq. intros p.
    rewrite (copy_into_lookup d ks (copy_into d t ks)), length_copy_into.
    destruct (written ks p && (p <? length (dmxData t))%nat) eqn:Hw; [|done].
    by rewrite copy_into_lookup, Hw.
  - destruct (copy_into_pins d ks (copy_into d t ks)) as [-> _].
    done.
  - destruct (copy_into_pins d ks (copy_into d t ks)) as [_ ->].
    done.
Qed.

Lemma written_seqZ (n j : Z) :
  1 <= j <= 512 ->
  written (seqZ 1 n) (Z.to_nat (j - 1)) = (j <=? n).
Proof.
  intros Hj. unfold written. apply eq_true_iff_eq.
  rewrite existsb_exists, Z.leb_le. split.
  - intros (i & Hin & Hi). apply list_elem_of_In, elem_of_seqZ in Hin.
    apply andb_true_iff in Hi as [Hr Hp].
    apply slot_in_range_spec in Hr. apply Nat.eqb_eq in Hp. lia.
  - intros Hle. exists j. split.
    + apply list_elem_of_In, elem_of_seqZ. lia.
    + apply andb_true_iff. split.
      * by apply slot_in_range_spec.
      * by apply Nat.eqb_eq.
Qed.

(** Slot [j] of the Channel Buffer after slots [1..n] were copied. *)
Lemma buffer_get_copy_into (d : Ifc) (t : LXArduinoDMXUSART) (n j : Z) :
  length (dmxData t) = 512%nat ->
  1 <= j <= 512 ->
  buffer_get (dmxData (copy_into d t (seqZ 1 n))) j =
  if j <=? n then Some (interface_getSlot d j) else buffer_get (dmxData t) j.
Proof.
  intros Hlen Hj. unfold buffer_get.
  assert (slot_in_range j = true) as -> by by apply slot_in_range_spec.
  rewrite copy_into_lookup, written_seqZ, Hlen by done.
  assert ((Z.to_nat (j - 1) <? 512)%nat = true) as -> by (apply Nat.ltb_lt; lia).
  rewrite andb_true_r. destruct (j <=? n); [|done].
  do 2 f_equal. lia.
Qed.

(** *** One round of [loop] *)

Lemma calls_since_app (w w' : Sk) (cs : list Call) :
  calls w' = calls w ++ cs -> calls_since w w' = cs.
Proof. intros Hc. unfold calls_since. by rewrite Hc, drop_app_length. Qed.

(** The lease step, whenever it completes, leaves the LED, the socket and
    the transmitter alone. *)
Lemma loop_maintain_frame (w w0 : Sk) :
  loop_maintain cfg w = Ok (tt, w0) ->
  monitorstate w0 = monitorstate w /\
  LXSerialDMX w0 = LXSerialDMX w /\
  exists cs, calls w0 = calls w ++ cs /\ forallb quiet cs = true.
Proof.
  unfold loop_maintain.
  destruct (truthy (USE_DHCP cfg)).
  2:{ intros [= <-]. repeat split. exists []. by rewrite app_nil_r. }
  unfold Ethernet_maintain_, Ethernet_localIP_, Ethernet_subnetMask_,
    LXArtNet_setLocalIP, deref_LXArtNet, deref_interface.
  unmonad. simpl.
  destruct (Ethernet_maintain (Ethernet w)) as [r e']. simpl.
  destruct ((uint8 r =? 4) || (uint8 r =? 2)); simpl.
  - destruct (negb (truthy (USE_SACN cfg))); simpl.
    + destruct (interface w) as [[s|a]|]; simpl; intros [= <-]; simpl.
      repeat split. eexists. rewrite <- app_assoc. by split.
    + intros [= <-]. simpl. repeat split. by eexists.
  - intros [= <-]. simpl. repeat split. by eexists.
Qed.

(** So does the read phase. *)
Lemma read_phase_frame (w w1 : Sk) (result : Z) :
  read_phase cfg w = Ok (result, w1) ->
  monitorstate w1 = monitorstate w /\
  LXSerialDMX w1 = LXSerialDMX w /\
  exists cs, calls w1 = calls w ++ cs /\ forallb quiet cs = true.
Proof.
  unfold read_phase. unmonad.
  destruct (loop_maintain cfg w) as [[[] w0]|k|] eqn:Hm; [|done|done].
  destruct (loop_maintain_frame w w0 Hm) as (Hms & Htx & cs0 & Hcs0 & Hq0).
  unfold interface_readDMXPacket_, deref_interface. unmonad.
  destruct (interface w0) as [d|]; [|done].
  destruct (interface_readDMXPacket d (eUDP w0)) as [[r d'] u'].
  intros [= <- <-]. simpl. repeat split; try done.
  exists (cs0 ++ [Call_readDMXPacket]). rewrite Hcs0, <- app_assoc.
  split; [done|]. by rewrite forallb_app, Hq0.
Qed.

Lemma loop_other_run (fuel : nat) (w w1 : Sk) (result : Z) :
  read_phase cfg w = Ok (result, w1) ->
  result <> RESULT_DMX_RECEIVED ->
  loop cfg fuel w = Ok (tt, w1).
Proof.
  intros Hread Hne. rewrite loop_split, Hread.
  by apply Z.eqb_neq in Hne as ->.
Qed.

Lemma loop_dmx_run (fuel : nat) (w w1 : Sk) (d : Ifc) :
  read_phase cfg w = Ok (RESULT_DMX_RECEIVED, w1) ->
  interface w1 = Some d ->
  interface_numberOfSlots d < INT_MAX ->
  (Z.to_nat (interface_numberOfSlots d) < fuel)%nat ->
  loop cfg fuel w =
  Ok (tt, blinked (copied d (seqZ 1 (interface_numberOfSlots d)) w1)).
Proof.
  intros Hread Hd Hn Hfuel. rewrite loop_split, Hread, Z.eqb_refl.
  rewrite (copy_slots_run fuel 1 w1 d Hd Hn).
  - replace (interface_numberOfSlots d - 1 + 1)
      with (interface_numberOfSlots d) by lia.
    apply blinkLED_run.
  - replace (interface_numberOfSlots d - 1 + 1)
      with (interface_numberOfSlots d) by lia.
    done.
Qed.

(** The calls of a round that applied a DMX packet. *)
Lemma loop_dmx_calls (w w1 : Sk) (d : Ifc) (n : Z) :
  read_phase cfg w = Ok (RESULT_DMX_RECEIVED, w1) ->
  exists cs0,
    forallb quiet cs0 = true /\
    calls (blinked (copied d (seqZ 1 n) w1)) =
    calls w ++ cs0 ++ slot_calls d n ++
      [Call_digitalWrite MONITOR_PIN (toggle (monitorstate w))].
Proof.
  intros Hread.
  destruct (read_phase_frame w w1 _ Hread) as (Hms & _ & cs0 & Hcs0 & Hq).
  exists cs0. split; [done|].
  unfold blinked, copied, slot_calls. simpl.
  by rewrite Hcs0, Hms, <- !app_assoc.
Qed.

Lemma slot_calls_lookup (d : Ifc) (n : Z) (k : nat) :
  Z.of_nat k < n ->
  slot_calls d n !! k =
  Some (Call_setSlot (Z.of_nat k + 1) (interface_getSlot d (Z.of_nat k + 1))).
Proof.
  intros Hk. unfold slot_calls.
  rewrite list_lookup_fmap, lookup_seqZ_lt by done. simpl.
  by replace (1 + Z.of_nat k) with (Z.of_nat k + 1) by lia.
Qed.

Lemma length_slot_calls (d : Ifc) (n : Z) :
  length (slot_calls d n) = Z.to_nat n.
Proof. unfold slot_calls. by rewrite length_fmap, length_seqZ. Qed.

Lemma slot_calls_indices (d : Ifc) (n : Z) (c : Call) :
  c ∈ slot_calls d n ->
  exists i, 1 <= i <= n /\ c = Call_setSlot i (interface_getSlot d i).
Proof.
  unfold slot_calls. intros (i & -> & Hi)%list_elem_of_fmap.
  apply elem_of_seqZ in Hi. exists i. split; [lia|done].
Qed.

Lemma slot_calls_in_range_iff (d : Ifc) (n : Z) :
  forallb slot_index_ok (slot_calls d n) = true <-> n <= 512.
Proof.
  rewrite forallb_forall. split.
  - intros Hall. destruct (Z.le_gt_cases n 512) as [|Hgt]; [done|].
    assert (slot_index_ok (Call_setSlot 513 (interface_getSlot d 513)) = true)
      as Hbad; [|done].
    apply Hall, list_elem_of_In. unfold slot_calls.
    apply list_elem_of_fmap. exists 513. split; [done|].
    apply elem_of_seqZ. lia.
  - intros Hle c (i & Hi & ->)%list_elem_of_In%slot_calls_indices.
    simpl. apply slot_in_range_spec. lia.
Qed.

Lemma filter_blink_quiet (cs : list Call) :
  forallb quiet cs = true -> List.filter is_blink cs = [].
Proof.
  induction cs as [|c cs IH]; simpl; [done|].
  intros [Hc Hcs]%andb_true_iff. unfold quiet in Hc.
  apply andb_true_iff in Hc as [_ Hb]. apply negb_true_iff in Hb.
  rewrite Hb. by apply IH.
Qed.

Lemma filter_setSlot_quiet (cs : list Call) :
  forallb quiet cs = true -> List.filter is_setSlot cs = [].
Proof.
  induction cs as [|c cs IH]; simpl; [done|].
  intros [Hc Hcs]%andb_true_iff. unfold quiet in Hc.
  apply andb_true_iff in Hc as [Hs _]. apply negb_true_iff in Hs.
  rewrite Hs. by apply IH.
Qed.

Lemma slot_index_ok_quiet (cs : list Call) :
  forallb quiet cs = true -> forallb slot_index_ok cs = true.
Proof.
  induction cs as [|c cs IH]; simpl; [done|].
  intros [Hc Hcs]%andb_true_iff. rewrite (IH Hcs), andb_true_r.
  by destruct c.
Qed.

Lemma filter_slot_calls (d : Ifc) (n : Z) :
  List.filter is_setSlot (slot_calls d n) = slot_calls d n /\
  List.filter is_blink (slot_calls d n) = [].
Proof.
  unfold slot_calls. induction (seqZ 1 n) as [|i ks [IH1 IH2]]; [done|].
  rewrite fmap_cons. cbn [List.filter is_setSlot is_blink].
  by rewrite IH1, IH2.
Qed.

(** The same levels in the same number of slots give the same copy. *)
Lemma copy_into_ext (d d' : Ifc) (ks : list Z) :
  (forall i, interface_getSlot d' i = interface_getSlot d i) ->
  forall t, copy_into d' t ks = copy_into d t ks.
Proof.
  intros Hsame. induction ks as [|i ks IH]; intros t; [done|].
  by rewrite !copy_into_cons, Hsame, IH.
Qed.

(** *** The claims about [loop] *)

(** C1.  A round of [loop] that reads a DMX packet of [n] slots,
    [1 <= n <= 512], ends with slots [1..n] of the Channel Buffer equal to
    the packet's levels and slots [n+1..512] as they were before the round:
    the last value is held, nothing is zero-filled. *)
Theorem loop_dmx_last_value_held (fuel : nat) (w w1 : Sk) (d : Ifc) (n : Z) :
  is_ready cfg w = true ->
  read_phase cfg w = Ok (RESULT_DMX_RECEIVED, w1) ->
  interface w1 = Some d ->
  interface_numberOfSlots d = n ->
  1 <= n <= 512 ->
  (Z.to_nat n < fuel)%nat ->
  exists w',
    loop cfg fuel w = Ok (tt, w') /\
    (forall j, 1 <= j <= n ->
       buffer_get (dmxData (LXSerialDMX w')) j = Some (interface_getSlot d j)) /\
    (forall j, n < j <= 512 ->
       buffer_get (dmxData (LXSerialDMX w')) j =
       buffer_get (dmxData (LXSerialDMX w)) j).
Proof.
  intros Hr Hread Hd Hn Hrange Hfuel. subst n.
  destruct (read_phase_frame w w1 _ Hread) as (_ & Htx & _).
  eexists. split.
  - apply (loop_dmx_run fuel w w1 d); try done. unfold INT_MAX. lia.
  - simpl. rewrite Htx. pose proof (is_ready_length w Hr) as Hlen. split.
    + intros j Hj. rewrite buffer_get_copy_into by (done || lia).
      by assert ((j <=? interface_numberOfSlots d) = true) as ->
        by (apply Z.leb_le; lia).
    + intros j Hj. rewrite buffer_get_copy_into by (done || lia).
      by assert ((j <=? interface_numberOfSlots d) = false) as ->
        by (apply Z.leb_gt; lia).
Qed.

(** C2.  From a state [setup] leaves, a round of [loop] whose
    [readDMXPacket] result is anything but [RESULT_DMX_RECEIVED] completes
    without a fault, writes no slot of the Channel Buffer and does not
    toggle the LED. *)
Theorem loop_not_dmx_is_noop (fuel : nat) (w : Sk) :
  is_ready cfg w = true ->
  exists result w1,
    read_phase cfg w = Ok (result, w1) /\
    (result <> RESULT_DMX_RECEIVED ->
       loop cfg fuel w = Ok (tt, w1) /\
       LXSerialDMX w1 = LXSerialDMX w /\
       monitorstate w1 = monitorstate w /\
       forallb quiet (calls_since w w1) = true).
Proof.
  intros Hr.
  destruct (read_phase_run w Hr) as (result & w1 & d & Hread & _).
  exists result, w1. split; [done|]. intros Hne.
  destruct (read_phase_frame w w1 _ Hread) as (Hms & Htx & cs & Hcs & Hq).
  repeat split; try done.
  - by apply (loop_other_run fuel w w1 result).
  - by rewrite (calls_since_app w w1 cs).
Qed.

(** C7.  A round of [loop] that reads a DMX packet calls [setSlot] on
    the indices [1, 2, ..., numberOfSlots()] in that order, the level of
    source slot [i] going to index [i]; index 0 is never written. *)
Theorem loop_copies_slots_in_order (fuel : nat) (w w1 : Sk) (d : Ifc) (n : Z) :
  read_phase cfg w = Ok (RESULT_DMX_RECEIVED, w1) ->
  interface w1 = Some d ->
  interface_numberOfSlots d = n ->
  n < INT_MAX ->
  (Z.to_nat n < fuel)%nat ->
  exists w',
    loop cfg fuel w = Ok (tt, w') /\
    List.filter is_setSlot (calls_since w w') = slot_calls d n /\
    length (slot_calls d n) = Z.to_nat n /\
    (forall k : nat,
       Z.of_nat k < n ->
       slot_calls d n !! k =
       Some (Call_setSlot (Z.of_nat k + 1) (interface_getSlot d (Z.of_nat k + 1)))) /\
    (forall v, Call_setSlot 0 v ∉ calls_since w w').
Proof.
  intros Hread Hd Hn Hmax Hfuel. subst n.
  destruct (loop_dmx_calls w w1 d (interface_numberOfSlots d) Hread)
    as (cs0 & Hq & Hcalls).
  eexists. split; [by apply (loop_dmx_run fuel w w1 d)|].
  rewrite (calls_since_app _ _ _ Hcalls).
  destruct (filter_slot_calls d (interface_numberOfSlots d)) as [Hf _].
  repeat split.
  - rewrite !List.filter_app, (filter_setSlot_quiet cs0 Hq), Hf. simpl.
    by rewrite app_nil_r.
  - apply length_slot_calls.
  - intros k Hk. by apply slot_calls_lookup.
  - intros v [Hin|[Hin|Hin]%elem_of_app]%elem_of_app.
    + apply list_elem_of_In in Hin.
      pose proof (proj1 (forallb_forall _ _) Hq _ Hin) as Hc. done.
    + apply slot_calls_indices in Hin as (i & Hi & [= <- _]). lia.
    + by apply list_elem_of_singleton in Hin.
Qed.

(** C3, as the sketch has it.  A round of [loop] that reads a DMX packet
    whose decoder reports [n] slots passes to [setSlot] exactly the indices
    [1..n]: none when [n <= 0], and all of them within [1,512] if and only
    if [n <= 512].  The loop has no range guard of its own.  Under the
    transmitter's contract the Channel Buffer keeps its length. *)
Theorem loop_forwards_reported_slots (fuel : nat) (w w1 : Sk) (d : Ifc) (n : Z) :
  read_phase cfg w = Ok (RESULT_DMX_RECEIVED, w1) ->
  interface w1 = Some d ->
  interface_numberOfSlots d = n ->
  n < INT_MAX ->
  (Z.to_nat n < fuel)%nat ->
  exists w',
    loop cfg fuel w = Ok (tt, w') /\
    List.filter is_setSlot (calls_since w w') = slot_calls d n /\
    (forallb slot_index_ok (calls_since w w') = true <-> n <= 512) /\
    (n <= 0 -> LXSerialDMX w' = LXSerialDMX w) /\
    length (dmxData (LXSerialDMX w')) = length (dmxData (LXSerialDMX w)).
Proof.
  intros Hread Hd Hn Hmax Hfuel. subst n.
  destruct (loop_dmx_calls w w1 d (interface_numberOfSlots d) Hread)
    as (cs0 & Hq & Hcalls).
  destruct (read_phase_frame w w1 _ Hread) as (_ & Htx & _).
  eexists. split; [by apply (loop_dmx_run fuel w w1 d)|].
  rewrite (calls_since_app _ _ _ Hcalls).
  destruct (filter_slot_calls d (interface_numberOfSlots d)) as [Hf _].
  split; [|split; [|split]].
  - rewrite !List.filter_app, (filter_setSlot_quiet cs0 Hq), Hf. simpl.
    by rewrite app_nil_r.
  - rewrite !forallb_app, (slot_index_ok_quiet cs0 Hq). simpl.
    rewrite andb_true_r. apply slot_calls_in_range_iff.
  - intros Hle. simpl. by rewrite seqZ_nil, Htx by done.
  - simpl. by rewrite length_copy_into, Htx.
Qed.

(** C6.  When a round of [loop] has applied a DMX packet and the next
    round reads a DMX packet with the same slot count and the same levels,
    that second round leaves the Channel Buffer exactly as the first one
    left it. *)
Theorem loop_same_packet_twice (fuel : nat) (w w1 w' w1' : Sk) (d d' : Ifc) :
  read_phase cfg w = Ok (RESULT_DMX_RECEIVED, w1) ->
  interface w1 = Some d ->
  interface_numberOfSlots d < INT_MAX ->
  (Z.to_nat (interface_numberOfSlots d) < fuel)%nat ->
  loop cfg fuel w = Ok (tt, w') ->
  read_phase cfg w' = Ok (RESULT_DMX_RECEIVED, w1') ->
  interface w1' = Some d' ->
  interface_numberOfSlots d' = interface_numberOfSlots d ->
  (forall i, interface_getSlot d' i = interface_getSlot d i) ->
  exists w'',
    loop cfg fuel w' = Ok (tt, w'') /\
    LXSerialDMX w'' = LXSerialDMX w'.
Proof.
  intros Hread Hd Hmax Hfuel Hloop Hread' Hd' Hn Hlevels.
  rewrite (loop_dmx_run fuel w w1 d) in Hloop by done.
  injection Hloop as <-.
  destruct (read_phase_frame _ w1' _ Hread') as (_ & Htx & _).
  eexists. split.
  - apply (loop_dmx_run fuel _ w1' d'); try done; by rewrite Hn.
  - simpl. rewrite Htx, Hn. simpl.
    rewrite (copy_into_ext d d') by done.
    apply copy_into_twice.
Qed.

(** C8, as the sketch has it.  [blinkLED] always completes and flips
    [monitorstate], LOW to HIGH and HIGH to LOW, writing the new state to
    the monitor pin.  A round of [loop] calls it exactly once when the
    result of [readDMXPacket] is [RESULT_DMX_RECEIVED], as the last call of
    the round, after [setSlot] has been called for the slots
    [1..numberOfSlots()] and the transmitter holds the copied levels; a
    round with any other result calls neither [setSlot] nor [blinkLED].
    The toggle follows the result code, not the number of slots written:
    with a count of 0 or less nothing is written and the LED still
    toggles. *)
Theorem blinkLED_once_per_dmx_round :
  (forall w : Sk,
     exists w',
       blinkLED w = Ok (tt, w') /\
       (monitorstate w = LOW -> monitorstate w' = HIGH) /\
       (monitorstate w = HIGH -> monitorstate w' = LOW) /\
       calls_since w w' = [Call_digitalWrite MONITOR_PIN (monitorstate w')]) /\
  (forall (fuel : nat) (w w1 : Sk) (result : Z),
     read_phase cfg w = Ok (result, w1) ->
     (result <> RESULT_DMX_RECEIVED ->
        exists w',
          loop cfg fuel w = Ok (tt, w') /\
          monitorstate w' = monitorstate w /\
          LXSerialDMX w' = LXSerialDMX w /\
          List.filter is_blink (calls_since w w') = [] /\
          List.filter is_setSlot (calls_since w w') = []) /\
     (result = RESULT_DMX_RECEIVED ->
        forall d : Ifc,
          interface w1 = Some d ->
          interface_numberOfSlots d < INT_MAX ->
          (Z.to_nat (interface_numberOfSlots d) < fuel)%nat ->
          exists w' cs0,
            loop cfg fuel w = Ok (tt, w') /\
            monitorstate w' = toggle (monitorstate w) /\
            forallb quiet cs0 = true /\
            calls_since w w' =
              cs0 ++ slot_calls d (interface_numberOfSlots d) ++
              [Call_digitalWrite MONITOR_PIN (monitorstate w')] /\
            List.filter is_blink (calls_since w w') =
              [Call_digitalWrite MONITOR_PIN (monitorstate w')] /\
            List.filter is_setSlot (calls_since w w') =
              slot_calls d (interface_numberOfSlots d) /\
            LXSerialDMX w' =
              copy_into d (LXSerialDMX w) (seqZ 1 (interface_numberOfSlots d)) /\
            (interface_numberOfSlots d <= 0 -> LXSerialDMX w' = LXSerialDMX w))).
Proof.
  split.
  - intros w. exists (blinked w). split; [apply blinkLED_run|].
    unfold blinked. simpl. split; [|split].
    + by intros ->.
    + by intros ->.
    + by apply calls_since_app.
  - intros fuel w w1 result Hread.
    destruct (read_phase_frame w w1 _ Hread) as (Hms & Htx & cs & Hcs & Hq).
    split.
    + intros Hne. exists w1.
      rewrite (calls_since_app w w1 cs) by done.
      split; [by apply (loop_other_run fuel w w1 result)|].
      split; [done|]. split; [done|].
      split; [by apply filter_blink_quiet|by apply filter_setSlot_quiet].
    + intros -> d Hd Hmax Hfuel.
      destruct (loop_dmx_calls w w1 d (interface_numberOfSlots d) Hread)
        as (cs0 & Hq0 & Hcalls).
      destruct (filter_slot_calls d (interface_numberOfSlots d)) as [Hfs Hfb].
      eexists. exists cs0. split; [by apply (loop_dmx_run fuel w w1 d)|].
      rewrite (calls_since_app _ _ _ Hcalls).
      cbn [monitorstate blinked log_call set_monitorstate copied LXSerialDMX].
      rewrite Hms, Htx.
      split; [done|]. split; [done|]. split; [done|].
      split; [|split; [|split; [done|]]].
      * rewrite !List.filter_app, (filter_blink_quiet cs0 Hq0), Hfb. done.
      * rewrite !List.filter_app, (filter_setSlot_quiet cs0 Hq0), Hfs. simpl.
        by rewrite app_nil_r.
      * intros Hle. by rewrite seqZ_nil.
Qed.

(** *** [setup] *)

Lemma bind_ok {X Y : Type} (m : M X) (f : X -> M Y) (w w1 : Sk) (x : X) :
  m w = Ok (x, w1) -> (m ≫= f) w = f x w1.
Proof. intros Hm. unfold mbind, M_bind. by rewrite Hm. Qed.

Lemma bind_assoc {X Y Z : Type} (m : M X) (f : X -> M Y) (g : Y -> M Z) (w : Sk) :
  ((m ≫= f) ≫= g) w = (m ≫= (fun x => f x ≫= g)) w.
Proof. unfold mbind, M_bind. by destruct (m w) as [[x w1]|k|]. Qed.

(** One call of [setup] at a time: each call is run on the state reached
    so far, then the final state is read off field by field. *)
(** Run one collaborator call on a state given field by field, and leave
    the new state field by field too. *)
Ltac run_call :=
  rewrite ?blinkLED_run;
  cbv beta iota zeta delta
    [pinMode digitalWrite Ethernet_begin_ Ethernet_begin_static_
     Ethernet_localIP_ Ethernet_subnetMask_ eUDP_begin eUDP_beginMulticast
     LXSerialDMX_setDirectionPin LXSerialDMX_startOutput
     interface_new_LXSACN interface_new_LXArtNet interface_dmxPort_
     LXArtNet_setNodeName LXArtNet_send_art_poll_reply
     deref_LXArtNet deref_interface blinked
     mbind M_bind mret M_ret gets modify call skip fault
     monitorstate use_multicast interface Ethernet eUDP LXSerialDMX calls
     log_call set_monitorstate set_use_multicast set_interface
     set_Ethernet set_eUDP set_LXSerialDMX];
  reflexivity.

Ltac run_step :=
  first [ rewrite bind_assoc | erewrite bind_ok by run_call ];
  cbv beta;
  repeat match goal with
         | Hb : ?b = _ |- context [if ?b then _ else _] => rewrite Hb
         end.

Ltac run_setup :=
  repeat run_step;
  eexists; split; [run_call|];
  cbn [monitorstate use_multicast interface Ethernet eUDP LXSerialDMX calls];
  repeat match goal with |- _ /\ _ => split end;
  rewrite <- ?app_assoc; reflexivity.

(** [setup] with the Art-Net variant selected. *)
Lemma setup_artnet_run (w : Sk) :
  truthy (USE_SACN cfg) = false ->
  let e1 := ethernet_up cfg (Ethernet w) in
  let a0 := new_LXArtNet (Ethernet_localIP e1) (Ethernet_subnetMask e1) in
  let u1 := UDP_begin (eUDP w) (dmxPort a0) in
  let reply := send_art_poll_reply (setNodeName a0 node_name) u1 in
  exists w',
    setup cfg w = Ok (tt, w') /\
    monitorstate w' = toggle (toggle (monitorstate w)) /\
    use_multicast w' = 0 /\
    interface w' = Some (An_LXArtNet reply.1) /\
    Ethernet w' = e1 /\
    eUDP w' = reply.2 /\
    LXSerialDMX w' = startOutput (setDirectionPin (LXSerialDMX w) RXTX_PIN) /\
    calls w' =
      calls w ++
      [Call_pinMode MONITOR_PIN OUTPUT;
       Call_digitalWrite MONITOR_PIN (toggle (monitorstate w));
       Call_pinMode SDSELECT_PIN OUTPUT;
       ethernet_call cfg;
       Call_new_LXArtNet (Ethernet_localIP e1) (Ethernet_subnetMask e1);
       Call_UDP_begin (dmxPort a0);
       Call_setDirectionPin RXTX_PIN;
       Call_startOutput;
       Call_setNodeName node_name;
       Call_send_art_poll_reply;
       Call_digitalWrite MONITOR_PIN (toggle (toggle (monitorstate w)))].
Proof.
  intros Hs. unfold setup, ethernet_up, ethernet_call. rewrite Hs.
  cbn [negb]. unfold skip. destruct w as [ms um i e u t cs].
  cbn [monitorstate use_multicast interface Ethernet eUDP LXSerialDMX calls].
  destruct (truthy (USE_DHCP cfg)); run_setup.
Qed.

(** [setup] with the sACN variant selected. *)
Lemma setup_sacn_run (w : Sk) :
  truthy (USE_SACN cfg) = true ->
  let e1 := ethernet_up cfg (Ethernet w) in
  let port := dmxPort (new_LXSACN (S := S)) in
  exists w',
    setup cfg w = Ok (tt, w') /\
    monitorstate w' = toggle (toggle (monitorstate w)) /\
    use_multicast w' = use_multicast w /\
    interface w' = Some (An_LXSACN new_LXSACN) /\
    Ethernet w' = e1 /\
    eUDP w' =
      (if truthy (use_multicast w) then
         if USE_MULTICAST_defined cfg
         then UDP_beginMulticast (eUDP w) multicast_group port
         else eUDP w
       else UDP_begin (eUDP w) port) /\
    LXSerialDMX w' = startOutput (setDirectionPin (LXSerialDMX w) RXTX_PIN) /\
    calls w' =
      calls w ++
      [Call_pinMode MONITOR_PIN OUTPUT;
       Call_digitalWrite MONITOR_PIN (toggle (monitorstate w));
       Call_pinMode SDSELECT_PIN OUTPUT;
       ethernet_call cfg;
       Call_new_LXSACN] ++
      (if truthy (use_multicast w) then
         if USE_MULTICAST_defined cfg
         then [Call_UDP_beginMulticast multicast_group port]
         else []
       else [Call_UDP_begin port]) ++
      [Call_setDirectionPin RXTX_PIN;
       Call_startOutput;
       Call_digitalWrite MONITOR_PIN (toggle (toggle (monitorstate w)))].
Proof.
  intros Hs. unfold setup, ethernet_up, ethernet_call. rewrite Hs.
  cbn [negb]. unfold skip. destruct w as [ms um i e u t cs].
  cbn [monitorstate use_multicast interface Ethernet eUDP LXSerialDMX calls].
  destruct (truthy (USE_DHCP cfg)), (truthy um) eqn:Hum,
    (USE_MULTICAST_defined cfg) eqn:Hdef;
    run_setup.
Qed.

Lemma truthy_false (z : Z) : truthy z = false <-> z = 0.
Proof. unfold truthy. rewrite negb_false_iff. apply Z.eqb_eq. Qed.

Lemma truthy_true (z : Z) : truthy z = true <-> z <> 0.
Proof. unfold truthy. rewrite negb_true_iff. apply Z.eqb_neq. Qed.

Lemma lease_renewed_spec (r : Z) :
  lease_renewed r = true <-> uint8 r = 4 \/ uint8 r = 2.
Proof. unfold lease_renewed. by rewrite orb_true_iff, !Z.eqb_eq. Qed.

(** [setup] leaves a ready sketch. *)
Lemma setup_ready (w : Sk) :
  length (dmxData (LXSerialDMX w)) = 512%nat ->
  exists w', setup cfg w = Ok (tt, w') /\ is_ready cfg w' = true.
Proof.
  intros Hlen. destruct (truthy (USE_SACN cfg)) eqn:Hs.
  - destruct (setup_sacn_run w Hs) as (w' & Hrun & _ & _ & Hi & _ & _ & Htx & _).
    exists w'. split; [done|]. unfold is_ready.
    rewrite Hi, Hs, Htx. simpl. by rewrite Hlen.
  - destruct (setup_artnet_run w Hs) as (w' & Hrun & _ & _ & Hi & _ & _ & Htx & _).
    exists w'. split; [done|]. unfold is_ready.
    rewrite Hi, Hs, Htx. simpl. by rewrite Hlen.
Qed.

(** A round of [loop] that completes keeps the sketch ready. *)
Lemma loop_keeps_ready (fuel : nat) (w w' : Sk) :
  is_ready cfg w = true ->
  loop cfg fuel w = Ok (tt, w') ->
  is_ready cfg w' = true.
Proof.
  intros Hr. destruct (read_phase_run w Hr)
    as (result & w1 & d & Hread & Hr1 & Hd & _).
  rewrite loop_split, Hread.
  destruct (result =? RESULT_DMX_RECEIVED); [|by intros [= <-]].
  destruct (copy_slots fuel 1 w1) as [[[] w2]|k|] eqn:Hcopy; [|done|done].
  rewrite blinkLED_run. intros [= <-].
  assert (interface w2 = interface w1 /\
          length (dmxData (LXSerialDMX w2)) = length (dmxData (LXSerialDMX w1)))
    as [Hi Hl].
  { clear Hread Hr Hr1. revert Hcopy. generalize 1. revert w1 Hd.
    induction fuel as [|fuel IH]; intros w1 Hd i; [done|].
    simpl. unfold interface_numberOfSlots_, interface_getSlot_, deref_interface,
      LXSerialDMX_setSlot, int_incr.
    unmonad. rewrite Hd. simpl.
    destruct (i <=? interface_numberOfSlots d); [|by intros [= <-]].
    rewrite Hd. destruct (i <? INT_MAX); [|done].
    intros Hrec. apply IH in Hrec as [-> ->]; [|done].
    simpl. by rewrite length_buffer_set. }
  unfold is_ready in *. simpl. by rewrite Hi, Hl.
Qed.

(** Whatever number of rounds the sketch has completed since power-on, it
    is ready for the next one. *)
Lemma rounds_keep_ready (fuel k : nat) :
  forall w w' : Sk,
    is_ready cfg w = true ->
    rounds cfg fuel k w = Ok (tt, w') ->
    is_ready cfg w' = true.
Proof.
  induction k as [|k IH]; intros w w' Hr.
  - by intros [= <-].
  - simpl. unmonad.
    destruct (loop cfg fuel w) as [[[] w1]|f|] eqn:Hloop; [|done|done].
    apply IH. by apply (loop_keeps_ready fuel w w1).
Qed.

Lemma sketch_ready (fuel k : nat) (e : E) (u : U) (w' : Sk) :
  sketch cfg fuel k (power_on cfg e u) = Ok (tt, w') ->
  is_ready cfg w' = true.
Proof.
  unfold sketch. unmonad.
  destruct (setup_ready (power_on cfg e u)) as (w0 & -> & Hr0); [done|].
  by apply rounds_keep_ready.
Qed.

(** *** The claims about the lease and about [setup] *)

(** C4.  Under DHCP, the lease step of a round of [loop] calls
    [setLocalIP] with the current address and mask if and only if [dhcpr] is
    4 or 2 (rebind or renew success) and the Art-Net variant is selected; in
    every other case, so on failure, on no change, and always under sACN,
    the [interface] object is left as it was.  Either way the round goes on
    to read a packet. *)
Theorem loop_maintain_reconfigures_iff_renewed (w : Sk) :
  is_ready cfg w = true ->
  truthy (USE_DHCP cfg) = true ->
  let dhcpr := uint8 (Ethernet_maintain (Ethernet w)).1 in
  let e' := (Ethernet_maintain (Ethernet w)).2 in
  let renewed := (dhcpr = 4 \/ dhcpr = 2) /\ USE_SACN cfg = 0 in
  exists w1,
    loop_maintain cfg w = Ok (tt, w1) /\
    (forall fuel, loop cfg fuel w = loop_receive fuel w1) /\
    (List.filter is_setLocalIP (calls_since w w1) <> [] <-> renewed) /\
    (renewed ->
       exists a,
         interface w = Some (An_LXArtNet a) /\
         interface w1 =
           Some (An_LXArtNet
                   (setLocalIP a (Ethernet_localIP e') (Ethernet_subnetMask e'))) /\
         calls_since w w1 =
           [Call_Ethernet_maintain;
            Call_setLocalIP (Ethernet_localIP e') (Ethernet_subnetMask e')]) /\
    (~ renewed ->
       interface w1 = interface w /\
       calls_since w w1 = [Call_Ethernet_maintain]).
Proof.
  intros Hr Hdhcp dhcpr e' renewed.
  destruct (loop_maintain_run w Hr) as (w1 & Hrun & _ & _ & _ & _ & _ & Hcase).
  rewrite Hdhcp in Hcase. destruct Hcase as [_ Hcase]. cbv zeta in Hcase.
  exists w1. split; [done|]. split.
  { intros fuel. unfold loop. unmonad. by rewrite Hrun. }
  assert (lease_renewed (Ethernet_maintain (Ethernet w)).1
          && negb (truthy (USE_SACN cfg)) = true <-> renewed) as Hiff.
  { unfold renewed, dhcpr.
    by rewrite andb_true_iff, lease_renewed_spec, negb_true_iff, truthy_false. }
  destruct (lease_renewed _ && negb _).
  - assert renewed as Hyes by by apply Hiff.
    destruct Hcase as (a & Ha & Ha1 & Hcalls).
    apply calls_since_app in Hcalls. rewrite Hcalls.
    split; [|split].
    + by split.
    + intros _. by exists a.
    + by intros Hno.
  - assert (~ renewed) as Hno by (intros Hyes; by apply Hiff in Hyes).
    destruct Hcase as [Hi Hcalls].
    apply calls_since_app in Hcalls. rewrite Hcalls.
    split; [|split].
    + by split.
    + by intros Hyes.
    + by intros _.
Qed.

(** C5.  With the Art-Net variant selected, [setup] makes exactly one
    [send_art_poll_reply] call, and makes it on the [LXArtNet] object right
    after naming it [node_name]; with the sACN variant selected it makes
    none. *)
Theorem setup_sends_one_poll_reply (w : Sk) :
  (USE_SACN cfg = 0 ->
     let e1 := ethernet_up cfg (Ethernet w) in
     let a0 := new_LXArtNet (Ethernet_localIP e1) (Ethernet_subnetMask e1) in
     let u1 := UDP_begin (eUDP w) (dmxPort a0) in
     let reply := send_art_poll_reply (setNodeName a0 node_name) u1 in
     exists w' pre,
       setup cfg w = Ok (tt, w') /\
       calls_since w w' =
         pre ++ [Call_setNodeName node_name; Call_send_art_poll_reply;
                 Call_digitalWrite MONITOR_PIN (monitorstate w')] /\
       List.filter is_poll_reply (calls_since w w') = [Call_send_art_poll_reply] /\
       interface w' = Some (An_LXArtNet reply.1) /\
       eUDP w' = reply.2) /\
  (USE_SACN cfg <> 0 ->
     exists w',
       setup cfg w = Ok (tt, w') /\
       List.filter is_poll_reply (calls_since w w') = []).
Proof.
  split.
  - intros Hs%truthy_false e1 a0 u1 reply.
    destruct (setup_artnet_run w Hs)
      as (w' & Hrun & Hms & _ & Hi & _ & Hu & _ & Hcalls).
    apply calls_since_app in Hcalls.
    exists w'. eexists. split; [done|]. rewrite Hcalls, Hms.
    split.
    + by instantiate (1 := [_; _; _; _; _; _; _; _]).
    + unfold ethernet_call. by destruct (truthy (USE_DHCP cfg)).
  - intros Hs%truthy_true.
    destruct (setup_sacn_run w Hs) as (w' & Hrun & _ & _ & _ & _ & _ & _ & Hcalls).
    apply calls_since_app in Hcalls.
    exists w'. split; [done|]. rewrite Hcalls.
    unfold ethernet_call.
    by destruct (truthy (USE_DHCP cfg)), (truthy (use_multicast w)),
      (USE_MULTICAST_defined cfg).
Qed.

(** C10.  With the Art-Net variant selected, [setup] sets [use_multicast]
    to 0 whatever it was and opens the socket with [begin], never with
    [beginMulticast]; [setup] calls [beginMulticast] only under the sACN
    variant with [USE_MULTICAST] defined. *)
Theorem setup_multicast_only_under_sacn (w : Sk) :
  exists w',
    setup cfg w = Ok (tt, w') /\
    (USE_SACN cfg = 0 ->
       use_multicast w' = 0 /\
       exists port,
         List.filter is_socket_open (calls_since w w') = [Call_UDP_begin port]) /\
    (List.filter is_multicast_open (calls_since w w') <> [] ->
       USE_SACN cfg <> 0 /\ USE_MULTICAST_defined cfg = true).
Proof.
  destruct (truthy (USE_SACN cfg)) eqn:Hs.
  - destruct (setup_sacn_run w Hs) as (w' & Hrun & _ & _ & _ & _ & _ & _ & Hcalls).
    apply calls_since_app in Hcalls.
    exists w'. split; [done|]. rewrite Hcalls. apply truthy_true in Hs.
    split; [done|]. unfold ethernet_call.
    by destruct (truthy (USE_DHCP cfg)), (truthy (use_multicast w)),
      (USE_MULTICAST_defined cfg).
  - destruct (setup_artnet_run w Hs) as (w' & Hrun & _ & Hum & _ & _ & _ & _ & Hcalls).
    apply calls_since_app in Hcalls.
    exists w'. split; [done|]. rewrite Hcalls. unfold ethernet_call.
    split.
    + intros _. split; [done|]. eexists.
      by destruct (truthy (USE_DHCP cfg)).
    + by destruct (truthy (USE_DHCP cfg)).
Qed.

(** *** More on the rounds of [loop] *)

Lemma filter_none (P Q : Call -> bool) (cs : list Call) :
  (forall c, Q c = true -> P c = false) ->
  forallb Q cs = true ->
  List.filter P cs = [].
Proof.
  intros HPQ. induction cs as [|c cs IH]; simpl; [done|].
  intros [Hc Hcs]%andb_true_iff. rewrite (HPQ c Hc). by apply IH.
Qed.

Lemma forallb_weaken (P Q : Call -> bool) (cs : list Call) :
  (forall c, Q c = true -> P c = true) ->
  forallb Q cs = true ->
  forallb P cs = true.
Proof.
  intros HPQ. induction cs as [|c cs IH]; simpl; [done|].
  intros [Hc Hcs]%andb_true_iff. by rewrite (HPQ c Hc), IH.
Qed.

Lemma blink_values_app (cs cs' : list Call) :
  blink_values (cs ++ cs') = blink_values cs ++ blink_values cs'.
Proof. unfold blink_values. apply flat_map_app. Qed.

Lemma blink_values_none (cs : list Call) :
  List.filter is_blink cs = [] -> blink_values cs = [].
Proof.
  induction cs as [|c cs IH]; simpl; [done|].
  destruct c; simpl; try apply IH.
  destruct (pin =? MONITOR_PIN); [done|apply IH].
Qed.

(** The lease step, call by call. *)
Lemma loop_maintain_calls (w w0 : Sk) :
  loop_maintain cfg w = Ok (tt, w0) ->
  monitorstate w0 = monitorstate w /\
  use_multicast w0 = use_multicast w /\
  eUDP w0 = eUDP w /\
  LXSerialDMX w0 = LXSerialDMX w /\
  exists pre,
    calls w0 = calls w ++ pre /\
    if truthy (USE_DHCP cfg)
    then exists tail,
        pre = Call_Ethernet_maintain :: tail /\ forallb is_setLocalIP tail = true
    else pre = [] /\ w0 = w.
Proof.
  unfold loop_maintain.
  destruct (truthy (USE_DHCP cfg)).
  2:{ intros [= <-]. repeat split. exists []. by rewrite app_nil_r. }
  unfold Ethernet_maintain_, Ethernet_localIP_, Ethernet_subnetMask_,
    LXArtNet_setLocalIP, deref_LXArtNet, deref_interface.
  unmonad. simpl.
  destruct (Ethernet_maintain (Ethernet w)) as [r e']. simpl.
  destruct ((uint8 r =? 4) || (uint8 r =? 2)); simpl.
  - destruct (negb (truthy (USE_SACN cfg))); simpl.
    + destruct (interface w) as [[s|a]|]; simpl; intros [= <-]; simpl.
      repeat split. eexists. rewrite <- app_assoc. split; [done|].
      by eexists.
    + intros [= <-]. simpl. repeat split. eexists. split; [done|]. by exists [].
  - intros [= <-]. simpl. repeat split. eexists. split; [done|]. by exists [].
Qed.

(** The read phase, call by call: the lease calls, then one
    [readDMXPacket]. *)
Lemma read_phase_calls (w w1 : Sk) (result : Z) :
  read_phase cfg w = Ok (result, w1) ->
  monitorstate w1 = monitorstate w /\
  use_multicast w1 = use_multicast w /\
  LXSerialDMX w1 = LXSerialDMX w /\
  (truthy (USE_DHCP cfg) = false -> Ethernet w1 = Ethernet w) /\
  exists pre,
    calls w1 = calls w ++ pre ++ [Call_readDMXPacket] /\
    if truthy (USE_DHCP cfg)
    then exists tail,
        pre = Call_Ethernet_maintain :: tail /\ forallb is_setLocalIP tail = true
    else pre = [].
Proof.
  unfold read_phase. unmonad.
  destruct (loop_maintain cfg w) as [[[] w0]|k|] eqn:Hm; [|done|done].
  destruct (loop_maintain_calls w w0 Hm) as (Hms & Hum & _ & Htx & pre & Hpre & Hcase).
  unfold interface_readDMXPacket_, deref_interface. unmonad.
  destruct (interface w0) as [d|]; [|done].
  destruct (interface_readDMXPacket d (eUDP w0)) as [[r d'] u'].
  intros [= <- <-]. simpl. repeat split; try done.
  - intros Hd. rewrite Hd in Hcase. by destruct Hcase as [_ ->].
  - exists pre. rewrite Hpre, <- app_assoc. split; [done|].
    destruct (truthy (USE_DHCP cfg)); [done|by destruct Hcase].
Qed.

(** The copy loop, whenever it ends, has only called [setSlot]; a null
    [interface] is the only pointer fault it can meet. *)
Lemma copy_slots_frame (fuel : nat) :
  forall (i : Z) (w w2 : Sk),
    copy_slots fuel i w = Ok (tt, w2) ->
    monitorstate w2 = monitorstate w /\
    use_multicast w2 = use_multicast w /\
    interface w2 = interface w /\
    Ethernet w2 = Ethernet w /\
    exists cs, calls w2 = calls w ++ cs /\ forallb is_setSlot cs = true.
Proof.
  induction fuel as [|fuel IH]; intros i w w2; [done|].
  simpl. unfold interface_numberOfSlots_, interface_getSlot_, deref_interface,
    LXSerialDMX_setSlot, int_incr.
  unmonad. destruct (interface w) as [d|] eqn:Hd; [|done]. simpl.
  destruct (i <=? interface_numberOfSlots d).
  2:{ intros [= <-]. repeat (split; [done|]). exists []. by rewrite app_nil_r. }
  rewrite Hd. destruct (i <? INT_MAX); [|done].
  intros Hrec. apply IH in Hrec as (Hms & Hum & Hi & He & cs & Hcs & Hall).
  simpl in *.
  repeat (split; [congruence|]).
  exists (Call_setSlot i (interface_getSlot d i) :: cs).
  by rewrite Hcs, <- app_assoc.
Qed.

Lemma copy_slots_no_pointer_fault (fuel : nat) :
  forall (i : Z) (w : Sk) (d : Ifc),
    interface w = Some d ->
    match copy_slots fuel i w with
    | Fault NullInterface | Fault BadDowncast => False
    | _ => True
    end.
Proof.
  induction fuel as [|fuel IH]; intros i w d Hd; [done|].
  simpl. unfold interface_numberOfSlots_, interface_getSlot_, deref_interface,
    LXSerialDMX_setSlot, int_incr.
  unmonad. rewrite Hd. simpl.
  destruct (i <=? interface_numberOfSlots d); [|done].
  rewrite Hd. destruct (i <? INT_MAX); [|done].
  by apply (IH _ _ d).
Qed.

(** A completed round, call by call: the lease calls, one [readDMXPacket],
    and then either nothing or the [setSlot] calls followed by one write to
    the monitor pin. *)
Lemma loop_round_shape (fuel : nat) (w w' : Sk) :
  loop cfg fuel w = Ok (tt, w') ->
  use_multicast w' = use_multicast w /\
  (truthy (USE_DHCP cfg) = false -> Ethernet w' = Ethernet w) /\
  exists pre rest,
    calls w' = calls w ++ pre ++ [Call_readDMXPacket] ++ rest /\
    (if truthy (USE_DHCP cfg)
     then exists tail,
         pre = Call_Ethernet_maintain :: tail /\ forallb is_setLocalIP tail = true
     else pre = []) /\
    ((rest = [] /\ monitorstate w' = monitorstate w) \/
     (exists slots,
        rest = slots ++ [Call_digitalWrite MONITOR_PIN (toggle (monitorstate w))] /\
        forallb is_setSlot slots = true /\
        monitorstate w' = toggle (monitorstate w))).
Proof.
  rewrite loop_split.
  destruct (read_phase cfg w) as [[result w1]|k|] eqn:Hread; [|done|done].
  destruct (read_phase_calls w w1 _ Hread)
    as (Hms & Hum & _ & He & pre & Hpre & Hcase).
  destruct (result =? RESULT_DMX_RECEIVED).
  - destruct (copy_slots fuel 1 w1) as [[[] w2]|k|] eqn:Hcopy; [|done|done].
    destruct (copy_slots_frame fuel 1 w1 w2 Hcopy)
      as (Hms2 & Hum2 & _ & He2 & slots & Hslots & Hall).
    rewrite blinkLED_run. intros [= <-]. simpl.
    split; [congruence|]. split; [intros Hd; rewrite He2; by apply He|].
    exists pre. eexists. split; [|split; [done|]].
    2:{ right. exists slots. split; [reflexivity|]. split; [done|]. congruence. }
    rewrite Hslots, Hpre, Hms2, Hms. by rewrite <- !app_assoc.
  - intros [= <-]. split; [done|]. split; [done|].
    exists pre, []. split; [by rewrite Hpre|]. split; [done|]. by left.
Qed.

(** What a completed round adds to the log, in numbers. *)
Lemma loop_round_summary (fuel : nat) (w w' : Sk) :
  loop cfg fuel w = Ok (tt, w') ->
  use_multicast w' = use_multicast w /\
  exists cs,
    calls w' = calls w ++ cs /\
    forallb is_loop_call cs = true /\
    length (List.filter is_read cs) = 1%nat /\
    length (List.filter is_maintain cs) = (if truthy (USE_DHCP cfg) then 1 else 0)%nat /\
    ((blink_values cs = [] /\ List.filter is_blink cs = [] /\
      monitorstate w' = monitorstate w) \/
     (blink_values cs = [toggle (monitorstate w)] /\
      length (List.filter is_blink cs) = 1%nat /\
      monitorstate w' = toggle (monitorstate w))).
Proof.
  intros (Hum & _ & pre & rest & Hcalls & Hpre & Hrest)%loop_round_shape.
  split; [done|]. exists (pre ++ [Call_readDMXPacket] ++ rest).
  split; [done|].
  assert (forallb is_lease_call pre = true /\
          List.filter is_read pre = [] /\
          List.filter is_blink pre = [] /\
          length (List.filter is_maintain pre)
          = (if truthy (USE_DHCP cfg) then 1 else 0)%nat) as (Hp1 & Hp2 & Hp3 & Hp4).
  { destruct (truthy (USE_DHCP cfg)); [|by subst pre].
    destruct Hpre as (tail & -> & Htail). simpl.
    rewrite (forallb_weaken is_lease_call is_setLocalIP tail),
      (filter_none is_read is_setLocalIP tail),
      (filter_none is_blink is_setLocalIP tail),
      (filter_none is_maintain is_setLocalIP tail); try done;
      by intros [].  }
  assert (forallb is_loop_call rest = true /\
          List.filter is_read rest = [] /\
          List.filter is_maintain rest = [] /\
          ((blink_values rest = [] /\ List.filter is_blink rest = [] /\
            monitorstate w' = monitorstate w) \/
           (blink_values rest = [toggle (monitorstate w)] /\
            length (List.filter is_blink rest) = 1%nat /\
            monitorstate w' = toggle (monitorstate w))))
    as (Hr1 & Hr2 & Hr3 & Hr4).
  { destruct Hrest as [[-> Hms]|(slots & -> & Hall & Hms)].
    - repeat split; try done. by left.
    - rewrite forallb_app, !List.filter_app, blink_values_app.
      rewrite (forallb_weaken is_loop_call is_setSlot slots),
        (filter_none is_read is_setSlot slots),
        (filter_none is_blink is_setSlot slots),
        (filter_none is_maintain is_setSlot slots); try done;
        try by intros [].
      rewrite (blink_values_none slots)
        by (apply (filter_none is_blink is_setSlot); [by intros []|done]).
      repeat split; try done. by right. }
  rewrite !forallb_app, !List.filter_app, !blink_values_app, !length_app.
  rewrite (forallb_weaken is_loop_call is_lease_call pre), Hr1, Hp2, Hr2, Hp3,
    Hr3, Hp4; try done.
  2:{ intros c Hc. unfold is_loop_call. by rewrite Hc. }
  rewrite (blink_values_none pre Hp3). simpl. rewrite Nat.add_0_r.
  by repeat (split; [done|]).
Qed.

Lemma loop_no_pointer_fault (fuel : nat) (w : Sk) :
  is_ready cfg w = true ->
  match loop cfg fuel w with
  | Fault NullInterface | Fault BadDowncast => False
  | _ => True
  end.
Proof.
  intros Hr.
  destruct (read_phase_run w Hr) as (result & w1 & d & Hread & _ & Hd & _).
  rewrite loop_split, Hread.
  destruct (result =? RESULT_DMX_RECEIVED); [|done].
  pose proof (copy_slots_no_pointer_fault fuel 1 w1 d Hd) as Hcopy.
  destruct (copy_slots fuel 1 w1) as [[[] w2]|k|]; [|done|done].
  by rewrite blinkLED_run.
Qed.

(** What [k] completed rounds add to the log, in numbers. *)
Lemma rounds_summary (fuel k : nat) :
  forall w w' : Sk,
    rounds cfg fuel k w = Ok (tt, w') ->
    use_multicast w' = use_multicast w /\
    exists cs,
      calls w' = calls w ++ cs /\
      forallb is_loop_call cs = true /\
      length (List.filter is_read cs) = k /\
      length (List.filter is_maintain cs) = (if truthy (USE_DHCP cfg) then k else 0)%nat /\
      (length (List.filter is_blink cs) <= k)%nat.
Proof.
  induction k as [|k IH]; intros w w'.
  - intros [= <-]. split; [done|]. exists []. rewrite app_nil_r.
    by destruct (truthy (USE_DHCP cfg)).
  - simpl. unmonad.
    destruct (loop cfg fuel w) as [[[] w1]|f|] eqn:Hloop; [|done|done].
    intros Hrest.
    destruct (loop_round_summary fuel w w1 Hloop)
      as (Hum1 & cs1 & Hcs1 & Hall1 & Hread1 & Hm1 & Hblink1).
    destruct (IH w1 w' Hrest) as (Hum & cs & Hcs & Hall & Hread & Hm & Hblink).
    split; [congruence|]. exists (cs1 ++ cs).
    rewrite Hcs, Hcs1, <- app_assoc. split; [done|].
    rewrite forallb_app, !List.filter_app, !length_app, Hall1, Hall, Hread1,
      Hread, Hm1, Hm.
    repeat (split; [by destruct (truthy (USE_DHCP cfg))|]).
    destruct Hblink1 as [(_ & -> & _)|(_ & -> & _)]; simpl; lia.
Qed.

(** With static addressing a completed round makes no lease call and
    leaves the Ethernet object alone. *)
Lemma loop_round_static (fuel : nat) (w w' : Sk) :
  truthy (USE_DHCP cfg) = false ->
  loop cfg fuel w = Ok (tt, w') ->
  Ethernet w' = Ethernet w /\
  exists cs, calls w' = calls w ++ cs /\ List.filter is_lease_call cs = [].
Proof.
  intros Hd (_ & He & pre & rest & Hcalls & Hpre & Hrest)%loop_round_shape.
  rewrite Hd in Hpre. subst pre. split; [by apply He|].
  eexists. split; [exact Hcalls|].
  destruct Hrest as [[-> _]|(slots & -> & Hall & _)]; [done|].
  simpl. rewrite List.filter_app.
  by rewrite (filter_none is_lease_call is_setSlot slots) by (done || by intros []).
Qed.

Lemma led_pattern_S (m : nat) :
  led_pattern (Datatypes.S m) = led_pattern m ++ [if Nat.even m then HIGH else LOW].
Proof. unfold led_pattern. by rewrite seq_S, fmap_app. Qed.

Lemma led_at_quiet (m : nat) (w w' : Sk) (cs : list Call) :
  led_at m w ->
  calls w' = calls w ++ cs ->
  blink_values cs = [] ->
  monitorstate w' = monitorstate w ->
  led_at m w'.
Proof.
  intros [Hv Hms] Hcs Hnone Hsame. split.
  - by rewrite Hcs, blink_values_app, Hnone, app_nil_r.
  - congruence.
Qed.

Lemma led_at_blink (m : nat) (w w' : Sk) (cs : list Call) :
  led_at m w ->
  calls w' = calls w ++ cs ->
  blink_values cs = [toggle (monitorstate w)] ->
  monitorstate w' = toggle (monitorstate w) ->
  led_at (Datatypes.S m) w'.
Proof.
  intros [Hv Hms] Hcs Hone Htog. split.
  - rewrite Hcs, blink_values_app, Hone, Hv, led_pattern_S, Hms.
    by destruct (Nat.even m).
  - rewrite Htog, Hms, Nat.even_succ. unfold Nat.odd.
    by destruct (Nat.even m).
Qed.

Lemma setup_led (w : Sk) :
  exists w',
    setup cfg w = Ok (tt, w') /\
    monitorstate w' = toggle (toggle (monitorstate w)) /\
    exists cs,
      calls w' = calls w ++ cs /\
      List.filter is_setSlot cs = [] /\
      blink_values cs = [toggle (monitorstate w); toggle (toggle (monitorstate w))].
Proof.
  destruct (truthy (USE_SACN cfg)) eqn:Hs.
  - destruct (setup_sacn_run w Hs) as (w' & Hrun & Hms & _ & _ & _ & _ & _ & Hcalls).
    exists w'. split; [done|]. split; [done|]. eexists. split; [exact Hcalls|].
    unfold ethernet_call.
    by destruct (truthy (USE_DHCP cfg)), (truthy (use_multicast w)),
      (USE_MULTICAST_defined cfg).
  - destruct (setup_artnet_run w Hs) as (w' & Hrun & Hms & _ & _ & _ & _ & _ & Hcalls).
    exists w'. split; [done|]. split; [done|]. eexists. split; [exact Hcalls|].
    unfold ethernet_call. by destruct (truthy (USE_DHCP cfg)).
Qed.

Lemma rounds_led (fuel k : nat) :
  forall (m : nat) (w w' : Sk),
    led_at m w ->
    rounds cfg fuel k w = Ok (tt, w') ->
    exists m', (m <= m' <= m + k)%nat /\ led_at m' w'.
Proof.
  induction k as [|k IH]; intros m w w' Hled.
  - intros [= <-]. exists m. split; [lia|done].
  - simpl. unmonad.
    destruct (loop cfg fuel w) as [[[] w1]|f|] eqn:Hloop; [|done|done].
    intros Hrest.
    destruct (loop_round_summary fuel w w1 Hloop)
      as (_ & cs1 & Hcs1 & _ & _ & _ & Hblink1).
    destruct Hblink1 as [(Hnone & _ & Hms)|(Hone & _ & Hms)].
    + destruct (IH m w1 w' (led_at_quiet m w w1 cs1 Hled Hcs1 Hnone Hms) Hrest)
        as (m' & Hm' & Hled').
      exists m'. split; [lia|done].
    + destruct (IH (Datatypes.S m) w1 w'
                  (led_at_blink m w w1 cs1 Hled Hcs1 Hone Hms) Hrest)
        as (m' & Hm' & Hled').
      exists m'. split; [lia|done].
Qed.

(** *** Further properties of [blinkLED], [setup] and [loop] *)

(** X1.  [blinkLED] treats every value other than LOW as HIGH: one call
    always leaves [monitorstate] at LOW or HIGH, and two calls in a row give
    back a LOW or HIGH it started from. *)
Theorem blinkLED_twice_restores (w : Sk) :
  exists w1 w2,
    blinkLED w = Ok (tt, w1) /\
    blinkLED w1 = Ok (tt, w2) /\
    (monitorstate w1 = LOW \/ monitorstate w1 = HIGH) /\
    (monitorstate w <> LOW -> monitorstate w1 = LOW) /\
    (monitorstate w = LOW \/ monitorstate w = HIGH ->
     monitorstate w2 = monitorstate w) /\
    blink_values (calls_since w w2) = [monitorstate w1; monitorstate w2].
Proof.
  exists (blinked w), (blinked (blinked w)).
  split; [apply blinkLED_run|]. split; [apply blinkLED_run|].
  unfold blinked. simpl. unfold toggle.
  split; [|split; [|split]].
  - destruct (monitorstate w =? LOW); auto.
  - intros Hne%Z.eqb_neq. by rewrite Hne.
  - by intros [-> | ->].
  - rewrite (calls_since_app w _
               [Call_digitalWrite MONITOR_PIN
                  (if monitorstate w =? LOW then HIGH else LOW);
                Call_digitalWrite MONITOR_PIN
                  (if (if monitorstate w =? LOW then HIGH else LOW) =? LOW
                   then HIGH else LOW)]).
    + reflexivity.
    + simpl. by rewrite <- app_assoc.
Qed.

(** X2.  [setup] completes from any state, the null [interface] pointer of
    power-on included, in every configuration.  It leaves [interface]
    pointing to an object of the configured variant, calls [setSlot] not
    once, and blinks the LED twice, so that a LOW or HIGH [monitorstate] is
    back where it was. *)
Theorem setup_completes_without_slot_write (w : Sk) :
  exists w',
    setup cfg w = Ok (tt, w') /\
    match interface w' with
    | Some (An_LXArtNet _) => USE_SACN cfg = 0
    | Some (An_LXSACN _) => USE_SACN cfg <> 0
    | None => False
    end /\
    List.filter is_setSlot (calls_since w w') = [] /\
    dmxData (LXSerialDMX w') = dmxData (LXSerialDMX w) /\
    blink_values (calls_since w w') =
      [toggle (monitorstate w); toggle (toggle (monitorstate w))] /\
    (monitorstate w = LOW \/ monitorstate w = HIGH ->
     monitorstate w' = monitorstate w).
Proof.
  destruct (setup_led w) as (w' & Hrun & Hms & cs & Hcs & Hslots & Hblink).
  exists w'. split; [done|].
  rewrite (calls_since_app w w' cs Hcs).
  split; [|split; [done|split; [|split; [done|]]]].
  - destruct (truthy (USE_SACN cfg)) eqn:Hs.
    + destruct (setup_sacn_run w Hs) as (w2 & Hrun2 & _ & _ & Hi & _).
      rewrite Hrun in Hrun2. injection Hrun2 as <-. rewrite Hi.
      by apply truthy_true.
    + destruct (setup_artnet_run w Hs) as (w2 & Hrun2 & _ & _ & Hi & _).
      rewrite Hrun in Hrun2. injection Hrun2 as <-. rewrite Hi.
      by apply truthy_false.
  - destruct (truthy (USE_SACN cfg)) eqn:Hs.
    + destruct (setup_sacn_run w Hs) as (w2 & Hrun2 & _ & _ & _ & _ & _ & Htx & _).
      rewrite Hrun in Hrun2. injection Hrun2 as <-. by rewrite Htx.
    + destruct (setup_artnet_run w Hs) as (w2 & Hrun2 & _ & _ & _ & _ & _ & Htx & _).
      rewrite Hrun in Hrun2. injection Hrun2 as <-. by rewrite Htx.
  - rewrite Hms. unfold toggle. by intros [-> | ->].
Qed.

(** X3.  Under Art-Net the poll reply of [setup] goes out only after
    Ethernet has been brought up, the socket has been opened on the
    interface's port and DMX output has been started. *)
Theorem setup_poll_reply_comes_last (w : Sk) :
  USE_SACN cfg = 0 ->
  let e1 := ethernet_up cfg (Ethernet w) in
  let a0 := new_LXArtNet (Ethernet_localIP e1) (Ethernet_subnetMask e1) in
  exists w' pre post,
    setup cfg w = Ok (tt, w') /\
    calls_since w w' = pre ++ [Call_send_art_poll_reply] ++ post /\
    ethernet_call cfg ∈ pre /\
    Call_UDP_begin (dmxPort a0) ∈ pre /\
    Call_startOutput ∈ pre /\
    List.filter is_socket_open post = [] /\
    List.filter is_poll_reply (pre ++ post) = [].
Proof.
  intros Hs%truthy_false e1 a0.
  destruct (setup_artnet_run w Hs) as (w' & Hrun & _ & _ & _ & _ & _ & _ & Hcalls).
  apply calls_since_app in Hcalls.
  exists w'. eexists. eexists. split; [done|]. rewrite Hcalls.
  split; [by instantiate (2 := [_; _; _; _; _; _; _; _; _])|].
  unfold ethernet_call.
  destruct (truthy (USE_DHCP cfg));
    (split; [|split; [|split; [|split]]]);
    try reflexivity; apply list_elem_of_In; simpl; tauto.
Qed.

(** X4.  From power-on, [setup] opens the socket exactly once, on the
    port of the freshly made interface object.  It uses [beginMulticast]
    on 239.255.0.1 when [USE_MULTICAST] is defined and the low byte of
    [USE_SACN] is not zero, and [begin] in every other case. *)
Theorem setup_opens_socket_once (e : E) (u : U) :
  let e1 := ethernet_up cfg e in
  let port :=
    if truthy (USE_SACN cfg) then dmxPort (new_LXSACN (S := S))
    else dmxPort (new_LXArtNet (Ethernet_localIP e1) (Ethernet_subnetMask e1)) in
  exists w',
    setup cfg (power_on cfg e u) = Ok (tt, w') /\
    List.filter is_socket_open (calls w') =
      [if USE_MULTICAST_defined cfg && truthy (uint8 (USE_SACN cfg))
       then Call_UDP_beginMulticast multicast_group port
       else Call_UDP_begin port].
Proof.
  intros e1 port. subst e1 port.
  destruct (truthy (USE_SACN cfg)) eqn:Hs.
  - destruct (setup_sacn_run (power_on cfg e u) Hs)
      as (w' & Hrun & _ & _ & _ & _ & _ & _ & Hcalls).
    exists w'. split; [done|]. rewrite Hcalls. simpl.
    unfold ethernet_call.
    destruct (USE_MULTICAST_defined cfg); simpl;
      destruct (truthy (USE_DHCP cfg)); try done;
      by destruct (truthy (uint8 (USE_SACN cfg))).
  - destruct (setup_artnet_run (power_on cfg e u) Hs)
      as (w' & Hrun & _ & _ & _ & _ & _ & _ & Hcalls).
    exists w'. split; [done|]. rewrite Hcalls. simpl.
    apply truthy_false in Hs. rewrite Hs. unfold ethernet_call.
    rewrite andb_false_r.
    by destruct (truthy (USE_DHCP cfg)).
Qed.

(** X5.  With static addressing ([USE_DHCP] 0) no number of rounds of
    [loop] ever calls [Ethernet.maintain] or [setLocalIP], and the Ethernet
    object stays as [setup] left it. *)
Theorem rounds_static_make_no_lease_call (fuel k : nat) (w w' : Sk) :
  USE_DHCP cfg = 0 ->
  rounds cfg fuel k w = Ok (tt, w') ->
  Ethernet w' = Ethernet w /\
  List.filter is_lease_call (calls_since w w') = [].
Proof.
  intros Hd%truthy_false. revert w.
  induction k as [|k IH]; intros w.
  - intros [= <-]. split; [done|].
    by rewrite (calls_since_app w w []) by by rewrite app_nil_r.
  - simpl. unmonad.
    destruct (loop cfg fuel w) as [[[] w1]|f|] eqn:Hloop; [|done|done].
    intros Hrest.
    destruct (loop_round_static fuel w w1 Hd Hloop) as (He1 & cs1 & Hcs1 & Hnone1).
    destruct (IH w1 Hrest) as [He Hnone].
    destruct (rounds_summary fuel k w1 w' Hrest) as (_ & cs & Hcs & _).
    rewrite (calls_since_app w1 w' cs Hcs) in Hnone.
    split; [congruence|].
    rewrite (calls_since_app w w' (cs1 ++ cs))
      by by rewrite Hcs, Hcs1, <- app_assoc.
    by rewrite List.filter_app, Hnone1, Hnone.
Qed.

(** X6.  A DMX packet whose decoder reports no slots (a count of 0 or
    less) is still acknowledged: the round calls [setSlot] not once, leaves
    the transmitter as it was, and toggles the LED. *)
Theorem loop_dmx_without_slots_still_blinks (fuel : nat) (w w1 : Sk) (d : Ifc) :
  read_phase cfg w = Ok (RESULT_DMX_RECEIVED, w1) ->
  interface w1 = Some d ->
  interface_numberOfSlots d <= 0 ->
  (0 < fuel)%nat ->
  exists w',
    loop cfg fuel w = Ok (tt, w') /\
    LXSerialDMX w' = LXSerialDMX w /\
    List.filter is_setSlot (calls_since w w') = [] /\
    monitorstate w' = toggle (monitorstate w) /\
    blink_values (calls_since w w') = [toggle (monitorstate w)].
Proof.
  intros Hread Hd Hn Hfuel.
  destruct (read_phase_frame w w1 _ Hread) as (Hms & Htx & _).
  destruct (loop_dmx_calls w w1 d (interface_numberOfSlots d) Hread)
    as (cs0 & Hq & Hcalls).
  eexists. split.
  { apply (loop_dmx_run fuel w w1 d); try done; [unfold INT_MAX|]; lia. }
  rewrite (calls_since_app _ _ _ Hcalls).
  unfold slot_calls. rewrite seqZ_nil by done. simpl.
  split; [done|].
  split; [|split; [by rewrite Hms|]].
  - by rewrite List.filter_app, (filter_setSlot_quiet cs0 Hq).
  - by rewrite blink_values_app,
      (blink_values_none cs0 (filter_blink_quiet cs0 Hq)).
Qed.

(** X7.  Two DMX packets applied one after the other merge slot by slot:
    a slot carried by the second packet has the second packet's level, a
    slot carried only by the first keeps the first packet's level, and a slot
    carried by neither keeps what it held before. *)
Theorem loop_later_packet_wins (fuel : nat) (w w1 w' w1' : Sk) (d1 d2 : Ifc) :
  is_ready cfg w = true ->
  read_phase cfg w = Ok (RESULT_DMX_RECEIVED, w1) ->
  interface w1 = Some d1 ->
  interface_numberOfSlots d1 < INT_MAX ->
  (Z.to_nat (interface_numberOfSlots d1) < fuel)%nat ->
  loop cfg fuel w = Ok (tt, w') ->
  read_phase cfg w' = Ok (RESULT_DMX_RECEIVED, w1') ->
  interface w1' = Some d2 ->
  interface_numberOfSlots d2 < INT_MAX ->
  (Z.to_nat (interface_numberOfSlots d2) < fuel)%nat ->
  exists w'',
    loop cfg fuel w' = Ok (tt, w'') /\
    forall j, 1 <= j <= 512 ->
      buffer_get (dmxData (LXSerialDMX w'')) j =
      if j <=? interface_numberOfSlots d2 then Some (interface_getSlot d2 j)
      else if j <=? interface_numberOfSlots d1 then Some (interface_getSlot d1 j)
      else buffer_get (dmxData (LXSerialDMX w)) j.
Proof.
  intros Hr Hread Hd1 Hmax1 Hfuel1 Hloop Hread' Hd2 Hmax2 Hfuel2.
  rewrite (loop_dmx_run fuel w w1 d1) in Hloop by done.
  injection Hloop as <-.
  destruct (read_phase_frame w w1 _ Hread) as (_ & Htx & _).
  destruct (read_phase_frame _ w1' _ Hread') as (_ & Htx' & _).
  pose proof (is_ready_length w Hr) as Hlen.
  eexists. split; [by apply (loop_dmx_run fuel _ w1' d2)|].
  intros j Hj. simpl. rewrite Htx'. simpl. rewrite Htx.
  rewrite buffer_get_copy_into; [|by rewrite length_copy_into|done].
  destruct (j <=? interface_numberOfSlots d2); [done|].
  by rewrite buffer_get_copy_into.
Qed.

(** X8.  Every completed round reads exactly one packet: [k] rounds make
    [k] [readDMXPacket] calls, [k] [Ethernet.maintain] calls under DHCP and
    none otherwise, and at most [k] writes to the monitor pin. *)
Theorem rounds_read_one_packet_each (fuel k : nat) (w w' : Sk) :
  rounds cfg fuel k w = Ok (tt, w') ->
  length (List.filter is_read (calls_since w w')) = k /\
  length (List.filter is_maintain (calls_since w w'))
  = (if truthy (USE_DHCP cfg) then k else 0)%nat /\
  (length (List.filter is_blink (calls_since w w')) <= k)%nat.
Proof.
  intros (_ & cs & Hcs & _ & Hread & Hm & Hblink)%rounds_summary.
  by rewrite (calls_since_app w w' cs Hcs).
Qed.

(** X9.  The rounds of [loop] only ever call [Ethernet.maintain],
    [setLocalIP], [readDMXPacket], [setSlot] and [digitalWrite] on the
    monitor pin.  They never open the socket again, never send a poll reply
    of their own, never restart the transmitter, and never change
    [use_multicast]. *)
Theorem rounds_never_reconfigure (fuel k : nat) (w w' : Sk) :
  rounds cfg fuel k w = Ok (tt, w') ->
  use_multicast w' = use_multicast w /\
  forallb is_loop_call (calls_since w w') = true /\
  List.filter is_socket_open (calls_since w w') = [] /\
  List.filter is_poll_reply (calls_since w w') = [] /\
  Call_startOutput ∉ calls_since w w'.
Proof.
  intros (Hum & cs & Hcs & Hall & _)%rounds_summary.
  rewrite (calls_since_app w w' cs Hcs).
  split; [done|]. split; [done|]. split; [|split].
  - apply (filter_none is_socket_open is_loop_call); [by intros []|done].
  - apply (filter_none is_poll_reply is_loop_call); [by intros []|done].
  - intros Hin%list_elem_of_In.
    by pose proof (proj1 (forallb_forall _ _) Hall _ Hin).
Qed.

(** X10.  From power-on, [setup] followed by any number of rounds of
    [loop] never dereferences a null [interface] pointer and never casts an
    [LXSACN] object to [LXArtNet]: the casts in [setup] and [loop] are
    guarded by the same switch that chose the object. *)
Theorem sketch_never_misuses_interface (fuel k : nat) (e : E) (u : U) :
  sketch cfg fuel k (power_on cfg e u) <> Fault NullInterface /\
  sketch cfg fuel k (power_on cfg e u) <> Fault BadDowncast.
Proof.
  assert (forall w : Sk,
            is_ready cfg w = true ->
            match rounds cfg fuel k w with
            | Fault NullInterface | Fault BadDowncast => False
            | _ => True
            end) as Hrounds.
  { induction k as [|k IH]; intros w Hr; [done|].
    simpl. unmonad.
    pose proof (loop_no_pointer_fault fuel w Hr) as Hloop.
    destruct (loop cfg fuel w) as [[[] w1]|f|] eqn:Hrun; [|done|done].
    apply IH. by apply (loop_keeps_ready fuel w w1). }
  unfold sketch. unmonad.
  destruct (setup_ready (power_on cfg e u)) as (w0 & -> & Hr0); [done|].
  specialize (Hrounds w0 Hr0).
  destruct (rounds cfg fuel k w0) as [[[] w']|[]|]; done.
Qed.

(** X11.  From power-on the monitor pin is written HIGH, LOW, HIGH, LOW
    and so on, never the same value twice in a row: after [setup] and [k]
    completed rounds it has been written between 2 and [k + 2] times, and
    [monitorstate] holds the value written last. *)
Theorem sketch_led_alternates (fuel k : nat) (e : E) (u : U) (w' : Sk) :
  sketch cfg fuel k (power_on cfg e u) = Ok (tt, w') ->
  exists m,
    (2 <= m <= k + 2)%nat /\
    blink_values (calls w') = led_pattern m /\
    monitorstate w' = if Nat.even m then LOW else HIGH.
Proof.
  unfold sketch. unmonad.
  destruct (setup_led (power_on cfg e u))
    as (w0 & -> & Hms & cs & Hcs & _ & Hblink).
  intros Hrest.
  assert (led_at 2 w0) as Hled.
  { split.
    - by rewrite Hcs, blink_values_app, Hblink.
    - by rewrite Hms. }
  destruct (rounds_led fuel k 2 w0 w' Hled Hrest) as (m & Hm & Hv & Hstate).
  exists m. split; [lia|done].
Qed.

End Properties.

(* ================================================================== *)
(** ** The bench runs *)

Section BenchRuns.

Import Bench.

Local Abbreviation cfgA := artnet_config.
Local Abbreviation cfgS := sacn_config.

(** A three-slot DMX packet after start-up: slots 1..3 take the packet's
    levels, slots 4..512 stay at their start-up value. *)
Lemma loop_dmx_last_value_held_witness :
  let w := booted cfgA [dmx3] in
  is_ready cfgA w = true /\
  interface_numberOfSlots (artnet_holding three ip) = 3 /\
  exists w',
    loop cfgA 10 w = Ok (tt, w') /\
    (forall j, 1 <= j <= 3 ->
       buffer_get (dmxData (LXSerialDMX w')) j =
       Some (interface_getSlot (artnet_holding three ip) j)) /\
    (forall j, 3 < j <= 512 ->
       buffer_get (dmxData (LXSerialDMX w')) j =
       buffer_get (dmxData (LXSerialDMX w)) j).
Proof.
  intros w. split; [vm_compute; reflexivity|]. split; [reflexivity|].
  apply (loop_dmx_last_value_held cfgA 10 w (after_read cfgA w)
           (artnet_holding three ip) 3).
  - vm_compute; reflexivity.
  - vm_compute; reflexivity.
  - vm_compute; reflexivity.
  - reflexivity.
  - lia.
  - simpl; lia.
Defined.

(** A packet of another type: the round is a no-op. *)
Lemma loop_not_dmx_is_noop_witness :
  let w := booted cfgA [other_packet] in
  is_ready cfgA w = true /\
  eval (read_phase cfgA) w = Ok 2 /\
  exists result w1,
    read_phase cfgA w = Ok (result, w1) /\
    (result <> RESULT_DMX_RECEIVED ->
       loop cfgA 10 w = Ok (tt, w1) /\
       LXSerialDMX w1 = LXSerialDMX w /\
       monitorstate w1 = monitorstate w /\
       forallb quiet (calls_since w w1) = true).
Proof.
  intros w. split; [vm_compute; reflexivity|]. split; [vm_compute; reflexivity|].
  apply (loop_not_dmx_is_noop cfgA 10 w). vm_compute; reflexivity.
Defined.

(** A decoder that reports 513 slots: the round passes index 513 on to
    [setSlot]. *)
Lemma loop_forwards_index_513 :
  let w := booted cfgA [dmx513] in
  let w' := after_loop cfgA 600 w in
  eval (interface_numberOfSlots_) w' = Ok 513 /\
  loop cfgA 600 w = Ok (tt, w') /\
  calls_since w w' !! 514%nat = Some (Call_setSlot 513 Byte.x07) /\
  forallb slot_index_ok (calls_since w w') = false.
Proof.
  intros w w'. split; [|split; [|split]]; vm_compute; reflexivity.
Defined.

Lemma loop_forwards_reported_slots_witness :
  let w := booted cfgA [dmx513] in
  let d := artnet_holding (replicate 513 Byte.x07) ip in
  exists w',
    loop cfgA 600 w = Ok (tt, w') /\
    List.filter is_setSlot (calls_since w w') = slot_calls d 513 /\
    (forallb slot_index_ok (calls_since w w') = true <-> 513 <= 512) /\
    (513 <= 0 -> LXSerialDMX w' = LXSerialDMX w) /\
    length (dmxData (LXSerialDMX w')) = length (dmxData (LXSerialDMX w)).
Proof.
  intros w d.
  apply (loop_forwards_reported_slots cfgA 600 w (after_read cfgA w) d 513).
  - vm_compute; reflexivity.
  - vm_compute; reflexivity.
  - vm_compute; reflexivity.
  - unfold INT_MAX; lia.
  - simpl; lia.
Defined.

(** The second round of the bench: [maintain] answers 2 and the lease has
    moved to 192.168.1.77. *)
Lemma loop_maintain_reconfigures_iff_renewed_witness :
  let w := after_loop cfgA 10 (booted cfgA []) in
  is_ready cfgA w = true /\
  uint8 (Ethernet_maintain (Ethernet w)).1 = 2 /\
  exists w1,
    loop_maintain cfgA w = Ok (tt, w1) /\
    interface w1 = Some (artnet_holding [] (IP 192 168 1 77)).
Proof.
  intros w. split; [vm_compute; reflexivity|]. split; [vm_compute; reflexivity|].
  destruct (loop_maintain_reconfigures_iff_renewed cfgA w)
    as (w1 & Hrun & _ & _ & Hyes & _);
    [vm_compute; reflexivity | vm_compute; reflexivity |].
  exists w1. split; [exact Hrun|].
  destruct Hyes as (a & Ha & Ha1 & _).
  - split; [right; vm_compute; reflexivity | reflexivity].
  - rewrite Ha1. vm_compute in Ha. injection Ha as <-. vm_compute; reflexivity.
Defined.

(** Start-up under Art-Net on the bench: one reply on the wire, and it
    carries the node name. *)
Lemma setup_sends_one_poll_reply_witness :
  let w := power_on cfgA eth0 (udp_with []) in
  (exists w',
     setup cfgA w = Ok (tt, w') /\
     List.filter is_poll_reply (calls_since w w') = [Call_send_art_poll_reply] /\
     sent (eUDP w') = [{| reply_name := node_name; reply_ip := ip |}]) /\
  (let w := power_on cfgS eth0 (udp_with []) in
   exists w',
     setup cfgS w = Ok (tt, w') /\
     List.filter is_poll_reply (calls_since w w') = []).
Proof.
  intros w. split.
  - destruct (proj1 (setup_sends_one_poll_reply cfgA w))
      as (w' & pre & Hrun & _ & Hone & _ & Hu); [reflexivity|].
    exists w'. split; [exact Hrun|]. split; [exact Hone|].
    rewrite Hu. vm_compute; reflexivity.
  - intros w0. apply (proj2 (setup_sends_one_poll_reply cfgS w0)).
    vm_compute. discriminate.
Defined.

(** The same three-slot packet in two successive rounds. *)
Lemma loop_same_packet_twice_witness :
  let w := booted cfgA [dmx3; dmx3] in
  let w' := after_loop cfgA 10 w in
  exists w'',
    loop cfgA 10 w' = Ok (tt, w'') /\
    LXSerialDMX w'' = LXSerialDMX w'.
Proof.
  intros w w'.
  apply (loop_same_packet_twice cfgA 10 w (after_read cfgA w) w'
           (after_read cfgA w')
           (artnet_holding three ip) (artnet_holding three (IP 192 168 1 77))).
  - vm_compute; reflexivity.
  - vm_compute; reflexivity.
  - vm_compute; reflexivity.
  - simpl; lia.
  - vm_compute; reflexivity.
  - vm_compute; reflexivity.
  - vm_compute; reflexivity.
  - reflexivity.
  - intros i. reflexivity.
Defined.

Lemma loop_copies_slots_in_order_witness :
  let w := booted cfgA [dmx3] in
  exists w',
    loop cfgA 10 w = Ok (tt, w') /\
    List.filter is_setSlot (calls_since w w') =
      [Call_setSlot 1 Byte.x0a; Call_setSlot 2 Byte.x14; Call_setSlot 3 Byte.x1e].
Proof.
  intros w.
  destruct (loop_copies_slots_in_order cfgA 10 w (after_read cfgA w)
              (artnet_holding three ip) 3)
    as (w' & Hrun & Hcalls & _).
  - vm_compute; reflexivity.
  - vm_compute; reflexivity.
  - vm_compute; reflexivity.
  - unfold INT_MAX; lia.
  - simpl; lia.
  - exists w'. split; [exact Hrun|]. rewrite Hcalls. reflexivity.
Defined.

(** A DMX packet that carries no slot: nothing reaches the Channel
    Buffer, and the LED is toggled all the same. *)
Lemma loop_blinks_on_empty_dmx_packet :
  let w := booted cfgA [dmx0] in
  let w' := after_loop cfgA 1 w in
  eval (read_phase cfgA) w = Ok RESULT_DMX_RECEIVED /\
  loop cfgA 1 w = Ok (tt, w') /\
  List.filter is_setSlot (calls_since w w') = [] /\
  LXSerialDMX w' = LXSerialDMX w /\
  List.filter is_blink (calls_since w w') = [Call_digitalWrite MONITOR_PIN HIGH].
Proof.
  intros w w'. split; [|split; [|split; [|split]]]; vm_compute; reflexivity.
Defined.

Lemma blinkLED_once_per_dmx_round_witness :
  (let w := booted cfgA [dmx3] in
   exists w' cs0,
     loop cfgA 10 w = Ok (tt, w') /\
     monitorstate w' = toggle (monitorstate w) /\
     forallb quiet cs0 = true /\
     calls_since w w' =
       cs0 ++ [Call_setSlot 1 Byte.x0a; Call_setSlot 2 Byte.x14;
               Call_setSlot 3 Byte.x1e] ++
       [Call_digitalWrite MONITOR_PIN (monitorstate w')]) /\
  (let w := booted cfgA [other_packet] in
   exists w',
     loop cfgA 10 w = Ok (tt, w') /\
     monitorstate w' = monitorstate w /\
     LXSerialDMX w' = LXSerialDMX w /\
     List.filter is_blink (calls_since w w') = [] /\
     List.filter is_setSlot (calls_since w w') = []).
Proof.
  destruct (blinkLED_once_per_dmx_round cfgA) as [_ Hloop].
  split; intros w.
  - destruct (Hloop 10%nat w (after_read cfgA w) 1) as [_ Hdmx];
      [vm_compute; reflexivity|].
    destruct (Hdmx eq_refl (artnet_holding three ip))
      as (w' & cs0 & Hrun & Hms & Hq & Hcalls & _).
    + vm_compute; reflexivity.
    + vm_compute; reflexivity.
    + simpl; lia.
    + exists w', cs0. split; [exact Hrun|]. split; [exact Hms|].
      split; [exact Hq|exact Hcalls].
  - destruct (Hloop 10%nat w (after_read cfgA w) 2) as [Hother _];
      [vm_compute; reflexivity|].
    apply Hother. vm_compute. discriminate.
Defined.

Lemma setup_multicast_only_under_sacn_witness :
  (let w := power_on cfgA eth0 (udp_with []) in
   exists w',
     setup cfgA w = Ok (tt, w') /\
     use_multicast w' = 0 /\
     opened (eUDP w') = [(None, 0x1936)]) /\
  (let w := power_on cfgS eth0 (udp_with []) in
   exists w',
     setup cfgS w = Ok (tt, w') /\
     opened (eUDP w') = [(Some multicast_group, 5568)]).
Proof.
  split; intros w.
  - destruct (setup_multicast_only_under_sacn cfgA w) as (w' & Hrun & Hart & _).
    exists w'. split; [exact Hrun|].
    destruct (Hart eq_refl) as [Hum _]. split; [exact Hum|].
    vm_compute in Hrun. injection Hrun as <-. reflexivity.
  - destruct (setup_multicast_only_under_sacn cfgS w) as (w' & Hrun & _).
    exists w'. split; [exact Hrun|].
    vm_compute in Hrun. injection Hrun as <-. reflexivity.
Defined.

Lemma setup_poll_reply_comes_last_witness :
  let w := power_on cfgA eth0 (udp_with []) in
  exists w' pre post,
    setup cfgA w = Ok (tt, w') /\
    calls_since w w' = pre ++ [Call_send_art_poll_reply] ++ post /\
    Call_UDP_begin 0x1936 ∈ pre /\
    Call_startOutput ∈ pre.
Proof.
  intros w.
  destruct (setup_poll_reply_comes_last cfgA w eq_refl)
    as (w' & pre & post & Hrun & Hcalls & _ & Hport & Hstart & _).
  exists w', pre, post.
  split; [exact Hrun|]. split; [exact Hcalls|]. split; [exact Hport|exact Hstart].
Defined.

Lemma rounds_static_make_no_lease_call_witness :
  let w := booted static_config [dmx3; other_packet] in
  let w' := after_rounds static_config 10 2 w in
  rounds static_config 10 2 w = Ok (tt, w') /\
  Ethernet w' = Ethernet w /\
  List.filter is_lease_call (calls_since w w') = [].
Proof.
  intros w w'. split; [vm_compute; reflexivity|].
  apply (rounds_static_make_no_lease_call static_config 10 2 w w').
  - reflexivity.
  - vm_compute; reflexivity.
Defined.

Lemma loop_dmx_without_slots_still_blinks_witness :
  let w := booted cfgA [dmx0] in
  exists w',
    loop cfgA 1 w = Ok (tt, w') /\
    LXSerialDMX w' = LXSerialDMX w /\
    List.filter is_setSlot (calls_since w w') = [] /\
    monitorstate w' = toggle (monitorstate w) /\
    blink_values (calls_since w w') = [toggle (monitorstate w)].
Proof.
  intros w.
  apply (loop_dmx_without_slots_still_blinks cfgA 1 w (after_read cfgA w)
           (artnet_holding [] ip)).
  - vm_compute; reflexivity.
  - vm_compute; reflexivity.
  - simpl; lia.
  - lia.
Defined.

(** Three slots, then one slot: slot 1 is the second packet's, slots 2 and
    3 stay the first packet's. *)
Lemma loop_later_packet_wins_witness :
  let w := booted cfgA [dmx3; dmx1] in
  let w' := after_loop cfgA 10 w in
  exists w'',
    loop cfgA 10 w' = Ok (tt, w'') /\
    take 4 (dmxData (LXSerialDMX w'')) = [Byte.x63; Byte.x14; Byte.x1e; Byte.x00].
Proof.
  intros w w'.
  destruct (loop_later_packet_wins cfgA 10 w (after_read cfgA w) w'
              (after_read cfgA w')
              (artnet_holding three ip)
              (artnet_holding [Byte.x63] (IP 192 168 1 77)))
    as (w'' & Hrun & _).
  - vm_compute; reflexivity.
  - vm_compute; reflexivity.
  - vm_compute; reflexivity.
  - vm_compute; reflexivity.
  - simpl; lia.
  - vm_compute; reflexivity.
  - vm_compute; reflexivity.
  - vm_compute; reflexivity.
  - vm_compute; reflexivity.
  - simpl; lia.
  - exists w''. split; [exact Hrun|].
    vm_compute in Hrun. injection Hrun as <-. reflexivity.
Defined.

Lemma rounds_read_one_packet_each_witness :
  let w := booted cfgA [dmx3; other_packet; dmx3] in
  let w' := after_rounds cfgA 10 3 w in
  length (List.filter is_read (calls_since w w')) = 3%nat /\
  length (List.filter is_maintain (calls_since w w')) = 3%nat /\
  (length (List.filter is_blink (calls_since w w')) <= 3)%nat.
Proof.
  intros w w'.
  apply (rounds_read_one_packet_each cfgA 10 3 w w').
  vm_compute; reflexivity.
Defined.

Lemma rounds_never_reconfigure_witness :
  let w := booted cfgS [dmx3; other_packet; dmx3] in
  let w' := after_rounds cfgS 10 3 w in
  use_multicast w' = use_multicast w /\
  forallb is_loop_call (calls_since w w') = true /\
  List.filter is_socket_open (calls_since w w') = [] /\
  List.filter is_poll_reply (calls_since w w') = [] /\
  Call_startOutput ∉ calls_since w w'.
Proof.
  intros w w'.
  apply (rounds_never_reconfigure cfgS 10 3 w w').
  vm_compute; reflexivity.
Defined.

Lemma sketch_led_alternates_witness :
  let w0 := power_on cfgA eth0 (udp_with [dmx3; other_packet; dmx3]) in
  let w' := state_of (exec (sketch cfgA 10 3) w0) w0 in
  blink_values (calls w') = [HIGH; LOW; HIGH; LOW] /\
  exists m,
    (2 <= m <= 3 + 2)%nat /\
    blink_values (calls w') = led_pattern m /\
    monitorstate w' = if Nat.even m then LOW else HIGH.
Proof.
  intros w0 w'. split; [vm_compute; reflexivity|].
  apply (sketch_led_alternates cfgA 10 3 eth0
           (udp_with [dmx3; other_packet; dmx3]) w').
  vm_compute; reflexivity.
Defined.

(** A sACN build whose [USE_SACN] has a zero low byte opens the socket
    with [begin]; the usual sACN build opens it with [beginMulticast]. *)
Lemma setup_opens_socket_once_witness :
  (exists w',
     setup sacn256_config (power_on sacn256_config eth0 (udp_with [])) = Ok (tt, w') /\
     List.filter is_socket_open (calls w') = [Call_UDP_begin 5568]) /\
  (exists w',
     setup cfgS (power_on cfgS eth0 (udp_with [])) = Ok (tt, w') /\
     List.filter is_socket_open (calls w') =
       [Call_UDP_beginMulticast multicast_group 5568]).
Proof.
  split.
  - exact (setup_opens_socket_once sacn256_config eth0 (udp_with [])).
  - exact (setup_opens_socket_once cfgS eth0 (udp_with [])).
Defined.

End BenchRuns.
